(** * md2rss: the markdown news log to RSS converter

    A shallow embedding of [.github/scripts/md2rss.py].  The script is forty
    lines of top-level Python gluing together library calls, so the embedding
    has two layers:

    - the library operations the script calls ([str.strip], [str.splitlines],
      [re.split], [datetime.strptime], [zoneinfo], [feedgen] and, under it,
      lxml), modelled after the behaviour of CPython 3.12 and feedgen 1.0 in
      the modules [Py], [Re], [Datetime], [Strptime], [Zone] and [Feedgen];
    - the script itself, statement by statement, in [Md2rss].

    Strings are lists of Unicode code points, as Python's [str] is.

    Three pieces of library data are parameters of the model, each a class
    with one field: the decimal digits outside ASCII ([UnicodeData]), the
    markdown renderer ([Markdown2]) and the offsets of America/Chicago before
    2007 ([TzData]).  The input file is the text [f.read()] returns; a file
    that cannot be decoded or an output path that cannot be written is not
    modelled.  The written file is the RSS document as a tree, its dates kept
    as values; lxml's refusal of a text that is not XML is modelled, the
    serialisation of the tree to bytes is not. *)

From Stdlib Require Import String Ascii List NArith ZArith Lia Bool.
Import ListNotations.

(* ================================================================== *)
(** ** Python strings *)

Module Py.
Local Open Scope N_scope.

Definition char := N.
Definition str := list char.

(** An ASCII literal as a Python string. *)
Definition py (s : string) : str := map N_of_ascii (list_ascii_of_string s).

Definition in_range (lo hi c : char) : bool := (lo <=? c) && (c <=? hi).

(** [str.isspace] on one character: the set [str.strip()] removes and the
    regular expression class [\s] matches on [str] patterns. *)
Definition is_space (c : char) : bool :=
  in_range 9 13 c || in_range 28 32 c || (c =? 133) || (c =? 160) ||
  (c =? 5760) || in_range 8192 8202 c || (c =? 8232) || (c =? 8233) ||
  (c =? 8239) || (c =? 8287) || (c =? 12288).

(** The line boundaries of [str.splitlines()]. *)
Definition is_linebreak (c : char) : bool :=
  in_range 10 13 c || in_range 28 30 c || (c =? 133) || (c =? 8232) ||
  (c =? 8233).

Fixpoint lstrip (s : str) : str :=
  match s with
  | c :: s' => if is_space c then lstrip s' else s
  | [] => []
  end.

Definition rstrip (s : str) : str := rev (lstrip (rev s)).

(** [s.strip()] *)
Definition strip (s : str) : str := rstrip (lstrip s).

(** [s.startswith(p)] *)
Fixpoint startswith (p s : str) : bool :=
  match p, s with
  | [], _ => true
  | a :: p', b :: s' => (a =? b) && startswith p' s'
  | _ :: _, [] => false
  end.

(** What follows a line boundary [c]: a carriage return swallows the line
    feed right after it. *)
Definition after_break (c : char) (s : str) : str :=
  match s with
  | c' :: s' => if (c =? 13) && (c' =? 10) then s' else s
  | [] => s
  end.

(** [s.splitlines()]: no entry for the empty tail after a final boundary. *)
Fixpoint splitlines (s : str) : list str :=
  match s with
  | [] => []
  | c :: s' =>
      if is_linebreak c then [] :: splitlines (after_break c s')
      else match splitlines s' with
           | l :: ls => (c :: l) :: ls
           | [] => [[c]]
           end
  end.

(** [s[:n]] and [s[n:]] for a non-negative literal [n]. *)
Definition slice_to (n : nat) (s : str) : str := firstn n s.
Definition slice_from (n : nat) (s : str) : str := skipn n s.

(** Exceptions the script can die of.  A [ValueError] is one of: the two
    messages of [_strptime] about the text [data] it was given, the two
    complaints of feedgen, and the two refusals of lxml when an element is
    given its text: the [UnicodeEncodeError] of [str.encode('utf8')] on a
    surrogate, and "All strings must be XML compatible". *)
Inductive value_error :=
| time_data (data : str)
| required_fields_not_set
| no_timezone_info
| surrogates_not_allowed
| not_xml_compatible.

Inductive exn :=
| ValueError (why : value_error)
| FileNotFoundError.

Inductive result (A : Type) :=
| Ok (a : A)
| Raise (e : exn).
Arguments Ok {A} a.
Arguments Raise {A} e.

End Py.
Export Py.

(* ================================================================== *)
(** ** The fragment of [re] the script and [_strptime] use *)

Module Re.
Local Open Scope N_scope.

(** [re.split(r'^## ', s, flags=re.MULTILINE)].  [bol] says whether the
    position in front of [s] is the start of the text or follows a line feed,
    the only places where [^] matches.  A match consumes the three characters
    and starts a new piece; any other character joins the current piece. *)
Fixpoint split_h2 (bol : bool) (s : str) : list str :=
  match s with
  | [] => [[]]
  | c :: s1 =>
      let no_match :=
        match split_h2 (c =? 10) s1 with
        | p :: ps => (c :: p) :: ps
        | [] => [[c]]
        end in
      if bol && (c =? 35) then
        match s1 with
        | c2 :: c3 :: s3 =>
            if (c2 =? 35) && (c3 =? 32) then [] :: split_h2 false s3
            else no_match
        | _ => no_match
        end
      else no_match
  end.

Definition re_split_h2 (s : str) : list str := split_h2 true s.

(** Regular expressions as [_strptime.TimeRE] builds them: literals,
    ranges, [\d], [\s+], concatenation, ordered alternation and named
    groups.  A group is named by its directive letter. *)
Inductive regex :=
| Eps
| Chr (c : char)
| Rng (lo hi : char)
| Dig
| Spaces
| Cat (r1 r2 : regex)
| Or (r1 r2 : regex)
| Grp (g : char) (r : regex).

Definition groups := list (char * str).

(** The names a pattern can bind ([pattern.groupindex]). *)
Fixpoint group_names (r : regex) : list char :=
  match r with
  | Grp g r1 => g :: group_names r1
  | Cat r1 r2 | Or r1 r2 => group_names r1 ++ group_names r2
  | _ => []
  end.

(** Decimal digits outside ASCII ([Py_UNICODE_TODECIMAL] above U+007F): the
    table belongs to the interpreter's Unicode database and is a parameter of
    the model; the ASCII digits are built in. *)
Class UnicodeData := { nonascii_decimal : char -> option N }.

Section Matcher.
Context `{UnicodeData}.

Definition decimal (c : char) : option N :=
  if in_range 48 57 c then Some (c - 48)
  else if c <? 128 then None
  else nonascii_decimal c.

(** [\d] *)
Definition is_digit (c : char) : bool :=
  match decimal c with Some _ => true | None => false end.

Section Backtracking.
Context {A : Type}.

(** Greedy [\s*]: the longest run first, shorter ones on failure of the
    continuation. *)
Fixpoint spaces_star (s : str) (k : str -> option A) : option A :=
  match s with
  | c :: s' =>
      if is_space c then
        match spaces_star s' k with
        | Some a => Some a
        | None => k s
        end
      else k s
  | [] => k s
  end.

(** [rmatch r s gs k]: match [r] at the front of [s], then run the
    continuation [k] on the rest and the groups bound so far; [None] makes
    the matcher backtrack into the previous choice. *)
Fixpoint rmatch (r : regex) (s : str) (gs : groups)
         (k : str -> groups -> option A) : option A :=
  match r with
  | Eps => k s gs
  | Chr c =>
      match s with
      | c' :: s' => if c' =? c then k s' gs else None
      | [] => None
      end
  | Rng lo hi =>
      match s with
      | c' :: s' => if in_range lo hi c' then k s' gs else None
      | [] => None
      end
  | Dig =>
      match s with
      | c' :: s' => if is_digit c' then k s' gs else None
      | [] => None
      end
  | Spaces =>
      match s with
      | c' :: s' =>
          if is_space c' then spaces_star s' (fun rest => k rest gs)
          else None
      | [] => None
      end
  | Cat r1 r2 => rmatch r1 s gs (fun s1 gs1 => rmatch r2 s1 gs1 k)
  | Or r1 r2 =>
      match rmatch r1 s gs k with
      | Some a => Some a
      | None => rmatch r2 s gs k
      end
  | Grp g r1 =>
      rmatch r1 s gs
        (fun s1 gs1 =>
           k s1 ((g, firstn (length s - length s1) s) :: gs1))
  end.
End Backtracking.

(** [pattern.match(s)]: the groups and the unmatched rest. *)
Definition re_match (r : regex) (s : str) : option (groups * str) :=
  rmatch r s [] (fun rest gs => Some (gs, rest)).

Fixpoint group (g : char) (gs : groups) : option str :=
  match gs with
  | (g', v) :: gs' => if g' =? g then Some v else group g gs'
  | [] => None
  end.

(** [int(s)] for a non-empty run of decimal digits, after stripping
    surrounding whitespace. *)
Fixpoint digits_value (acc : N) (s : str) : option N :=
  match s with
  | [] => Some acc
  | c :: s' =>
      match decimal c with
      | Some d => digits_value (10 * acc + d) s'
      | None => None
      end
  end.

Definition int (s : str) : option Z :=
  match strip s with
  | [] => None
  | t => option_map Z.of_N (digits_value 0 t)
  end.
End Matcher.

End Re.
Export Re.

(* ================================================================== *)
(** ** [datetime] values *)

Module Datetime.
Local Open Scope Z_scope.

(** The two time zone objects of a run: [zoneinfo.ZoneInfo('America/Chicago')]
    and [dateutil.tz.tzutc()]. *)
Inductive zone :=
| America_Chicago
| tzutc.

(** A [datetime], to the second. *)
Record datetime := mkDatetime {
  year : Z; month : Z; day : Z;
  hour : Z; minute : Z; second : Z;
  tzinfo : option zone
}.

(** [dt.replace(tzinfo=z)]: the civil fields stay as they are. *)
Definition replace_tzinfo (z : zone) (dt : datetime) : datetime :=
  mkDatetime (year dt) (month dt) (day dt) (hour dt) (minute dt) (second dt)
             (Some z).

Definition is_leap (y : Z) : bool :=
  (y mod 4 =? 0) && (negb (y mod 100 =? 0) || (y mod 400 =? 0)).

Definition days_in_month (y m : Z) : Z :=
  if m =? 2 then (if is_leap y then 29 else 28)
  else if (m =? 4) || (m =? 6) || (m =? 9) || (m =? 11) then 30
  else 31.

(** [_check_date_fields] *)
Definition check_date_fields (y m d : Z) : bool :=
  (1 <=? y) && (y <=? 9999) && (1 <=? m) && (m <=? 12) &&
  (1 <=? d) && (d <=? days_in_month y m).

(** [_check_time_fields], without the microsecond *)
Definition check_time_fields (h mi s : Z) : bool :=
  (0 <=? h) && (h <=? 23) && (0 <=? mi) && (mi <=? 59) &&
  (0 <=? s) && (s <=? 59).

Definition days_before_year (y : Z) : Z :=
  let y1 := y - 1 in y1 * 365 + y1 / 4 - y1 / 100 + y1 / 400.

Fixpoint days_before_month_nat (y : Z) (m : nat) : Z :=
  match m with
  | O => 0
  | S k => days_before_month_nat y k + days_in_month y (Z.of_nat (S k))
  end.

(** [_days_before_month]: days of the year in front of the first of [m]. *)
Definition days_before_month (y m : Z) : Z :=
  days_before_month_nat y (Z.to_nat (m - 1)).

(** [_ymd2ord]: the proleptic Gregorian ordinal, 0001-01-01 being day 1. *)
Definition ymd2ord (y m d : Z) : Z :=
  days_before_year y + days_before_month y m + d.

(** [date.weekday()]: Monday is 0, Sunday is 6. *)
Definition weekday (y m d : Z) : Z := (ymd2ord y m d + 6) mod 7.

End Datetime.
Export Datetime.

(* ================================================================== *)
(** ** [datetime.strptime], after [Lib/_strptime.py] *)

Module Strptime.
Local Open Scope N_scope.

Definition ch (a : ascii) : char := N_of_ascii a.

(** The entries of [TimeRE] for the directives of the two formats. *)

(** [%d] is [(?P<d>3[0-1]|[1-2]\d|0[1-9]|[1-9]| [1-9])] *)
Definition TimeRE_d : regex :=
  Grp (ch "d")
    (Or (Cat (Chr (ch "3")) (Rng (ch "0") (ch "1")))
    (Or (Cat (Rng (ch "1") (ch "2")) Dig)
    (Or (Cat (Chr (ch "0")) (Rng (ch "1") (ch "9")))
    (Or (Rng (ch "1") (ch "9"))
        (Cat (Chr (ch " ")) (Rng (ch "1") (ch "9"))))))).

(** [%H] is [(?P<H>2[0-3]|[0-1]\d|\d)] *)
Definition TimeRE_H : regex :=
  Grp (ch "H")
    (Or (Cat (Chr (ch "2")) (Rng (ch "0") (ch "3")))
    (Or (Cat (Rng (ch "0") (ch "1")) Dig)
        Dig)).

(** [%m] is [(?P<m>1[0-2]|0[1-9]|[1-9])] *)
Definition TimeRE_m : regex :=
  Grp (ch "m")
    (Or (Cat (Chr (ch "1")) (Rng (ch "0") (ch "2")))
    (Or (Cat (Chr (ch "0")) (Rng (ch "1") (ch "9")))
        (Rng (ch "1") (ch "9")))).

(** [%M] is [(?P<M>[0-5]\d|\d)] *)
Definition TimeRE_M : regex :=
  Grp (ch "M") (Or (Cat (Rng (ch "0") (ch "5")) Dig) Dig).

(** [%Y] is [(?P<Y>\d\d\d\d)] *)
Definition TimeRE_Y : regex :=
  Grp (ch "Y") (Cat Dig (Cat Dig (Cat Dig Dig))).

(** The lookup [self[directive]]; any other directive is a [KeyError],
    reported as [None]. *)
Definition directive_regex (d : char) : option regex :=
  if d =? ch "d" then Some TimeRE_d
  else if d =? ch "H" then Some TimeRE_H
  else if d =? ch "m" then Some TimeRE_m
  else if d =? ch "M" then Some TimeRE_M
  else if d =? ch "Y" then Some TimeRE_Y
  else None.

(** [TimeRE.pattern]: every run of whitespace of the format becomes [\s+]
    ([ws] says that the previous character was whitespace), [%x] becomes the
    table entry of [x], any other character stands for itself. *)
Fixpoint pattern (ws : bool) (format : str) : option regex :=
  match format with
  | [] => Some Eps
  | c :: f1 =>
      if c =? ch "%" then
        match f1 with
        | d :: f2 =>
            match directive_regex d, pattern false f2 with
            | Some r, Some rest => Some (Cat r rest)
            | _, _ => None
            end
        | [] => None
        end
      else if is_space c then
        if ws then pattern true f1
        else option_map (Cat Spaces) (pattern true f1)
      else option_map (Cat (Chr c)) (pattern false f1)
  end.

Section Strptime.
Context `{UnicodeData}.

(** The value of group [g], or the default of [_strptime] when the format
    has no such directive. *)
Definition field (g : ascii) (default : Z) (gs : groups) : option Z :=
  match group (ch g) gs with
  | Some v => int v
  | None => Some default
  end.

(** [datetime.strptime(data_string, format)].  [ValueError] when the format
    is bad, when the text does not match, when text is left over after the
    match, or when the fields are no date. *)
Definition strptime (data_string format : str) : result datetime :=
  match pattern false format with
  | None => Raise (ValueError (time_data data_string))
  | Some format_regex =>
      match re_match format_regex data_string with
      | None => Raise (ValueError (time_data data_string))
      | Some (_, _ :: _) => Raise (ValueError (time_data data_string))
      | Some (found, []) =>
          match field "Y" 1900 found, field "m" 1 found, field "d" 1 found,
                field "H" 0 found, field "M" 0 found with
          | Some y, Some mo, Some d, Some h, Some mi =>
              if check_date_fields y mo d && check_time_fields h mi 0
              then Ok (mkDatetime y mo d h mi 0 None)
              else Raise (ValueError (time_data data_string))
          | _, _, _, _, _ => Raise (ValueError (time_data data_string))
          end
      end
  end.
End Strptime.

End Strptime.
Export Strptime.

(* ================================================================== *)
(** ** The zone America/Chicago *)

Module Zone.
Local Open Scope Z_scope.

(** The offsets of America/Chicago in the years before the rule of 2007, in
    seconds east of UTC (local mean time, in force until 1883, is 5:50:36
    behind): data of the tz database, a parameter of the model. *)
Class TzData := { central_before_2007 : datetime -> Z }.

(** The first Sunday on or after day [d] of month [m]. *)
Definition sunday_from (y m d : Z) : Z := d + (6 - weekday y m d).

(** Minutes since the start of the year, in civil time. *)
Definition minute_of_year (y m d h mi : Z) : Z :=
  ((days_before_month y m + d) * 24 + h) * 60 + mi.

(** The rule in force since 2007 ([CST6CDT,M3.2.0,M11.1.0]) for a civil
    time with [fold=0]: daylight time from 03:00 on the second Sunday of March
    until 02:00 on the first Sunday of November. *)
Definition central_is_dst (dt : datetime) : bool :=
  let y := year dt in
  let t := minute_of_year y (month dt) (day dt) (hour dt) (minute dt) in
  (minute_of_year y 3 (sunday_from y 3 8) 3 0 <=? t) &&
  (t <? minute_of_year y 11 (sunday_from y 11 1) 2 0).

Section Offset.
Context `{TzData}.

(** [dt.utcoffset()], in seconds ([total_seconds()] of the [timedelta]);
    [None] for a naive [datetime]. *)
Definition utcoffset (dt : datetime) : option Z :=
  match tzinfo dt with
  | None => None
  | Some tzutc => Some 0
  | Some America_Chicago =>
      Some (if year dt <? 2007 then central_before_2007 dt
            else if central_is_dst dt then -18000 else -21600)
  end.

Definition two_digits (n : Z) : str :=
  [Z.to_N (48 + n / 10); Z.to_N (48 + n mod 10)].

(** The [%z] field of [strftime]: sign, hours, minutes, and the seconds when
    the offset is not a whole number of minutes. *)
Definition strftime_z (dt : datetime) : option str :=
  match utcoffset dt with
  | None => None
  | Some off =>
      let a := Z.abs off in
      Some ((if off <? 0 then ch "-" else ch "+")
              :: two_digits (a / 3600) ++ two_digits (a / 60 mod 60)
              ++ (if a mod 60 =? 0 then [] else two_digits (a mod 60)))
  end.
End Offset.

End Zone.
Export Zone.

(* ================================================================== *)
(** ** feedgen: [FeedGenerator] and [FeedEntry] *)

Module Feedgen.

(** The fields of a [FeedEntry] the script sets. *)
Record FeedEntry := mkFeedEntry {
  entry_title : option str;
  entry_description : option str;
  entry_pubDate : option datetime
}.

(** Entry objects live in a store and are named by their index in it: the
    feed's list and the variable [fe] of the script hold the same object. *)
Definition ref := nat.

Record FeedGenerator := mkFeedGenerator {
  feed_entries : list ref;
  rss_title : option str;
  rss_link : option str;
  rss_description : option str;
  rss_docs : str;
  rss_generator : str;
  rss_lastBuildDate : datetime
}.

Record heap := mkHeap {
  fg : FeedGenerator;
  objects : list FeedEntry
}.

(** Statements: they read and write the heap and may raise. *)
Definition prog (A : Type) : Type := heap -> result A * heap.

Definition ret {A} (a : A) : prog A := fun h => (Ok a, h).

Definition bind {A B} (c : prog A) (k : A -> prog B) : prog B :=
  fun h =>
    match c h with
    | (Ok a, h') => k a h'
    | (Raise e, h') => (Raise e, h')
    end.

Definition lift {A} (r : result A) : prog A := fun h => (r, h).

Notation "x <- c ;; k" := (bind c (fun x => k))
  (at level 61, c at next level, right associativity).
Notation "c ;; k" := (bind c (fun _ => k))
  (at level 61, right associativity).

(** [for x in xs: body] *)
Fixpoint for_each {X} (xs : list X) (body : X -> prog unit) : prog unit :=
  match xs with
  | [] => ret tt
  | x :: xs' => body x ;; for_each xs' body
  end.

(** [try: body except ValueError: handler], for expressions. *)
Definition try_except_ValueError {A} (body handler : result A) : result A :=
  match body with
  | Raise (ValueError _) => handler
  | r => r
  end.

(** Python's truth value of an optional string: [None] and the empty string
    are false. *)
Definition truthy (o : option str) : option str :=
  match o with
  | Some (_ :: _) => o
  | _ => None
  end.

Fixpoint update {X} (i : nat) (f : X -> X) (l : list X) : list X :=
  match l, i with
  | [], _ => []
  | x :: l', O => f x :: l'
  | x :: l', S j => x :: update j f l'
  end.

(** [FeedGenerator()]: no entries, the defaults of [__init__], and the time
    of creation [now] ([datetime.now(dateutil.tz.tzutc())]) as build date. *)
Definition FeedGenerator_init (now : datetime) : FeedGenerator :=
  mkFeedGenerator [] None None None
    (py "http://www.rssboard.org/rss-specification")
    (py "python-feedgen")
    (replace_tzinfo tzutc now).

(** Assignments to one attribute of the feed object. *)
Definition set_feed_entries (refs : list ref) (g : FeedGenerator)
  : FeedGenerator :=
  mkFeedGenerator refs (rss_title g) (rss_link g) (rss_description g)
    (rss_docs g) (rss_generator g) (rss_lastBuildDate g).

Definition set_rss_title (t : str) (g : FeedGenerator) : FeedGenerator :=
  mkFeedGenerator (feed_entries g) (Some t) (rss_link g) (rss_description g)
    (rss_docs g) (rss_generator g) (rss_lastBuildDate g).

Definition set_rss_link (href : str) (g : FeedGenerator) : FeedGenerator :=
  mkFeedGenerator (feed_entries g) (rss_title g) (Some href)
    (rss_description g) (rss_docs g) (rss_generator g) (rss_lastBuildDate g).

Definition set_rss_description (d : str) (g : FeedGenerator)
  : FeedGenerator :=
  mkFeedGenerator (feed_entries g) (rss_title g) (rss_link g) (Some d)
    (rss_docs g) (rss_generator g) (rss_lastBuildDate g).

Definition set_fg (f : FeedGenerator -> FeedGenerator) : prog unit :=
  fun h => (Ok tt, mkHeap (f (fg h)) (objects h)).

Definition set_fe (fe : ref) (f : FeedEntry -> FeedEntry) : prog unit :=
  fun h => (Ok tt, mkHeap (fg h) (update fe f (objects h))).

(** [fg.title(t)], [fg.link(href=u)], [fg.description(d)] *)
Definition FeedGenerator_title (t : str) : prog unit :=
  set_fg (set_rss_title t).

Definition FeedGenerator_link (href : str) : prog unit :=
  set_fg (set_rss_link href).

Definition FeedGenerator_description (d : str) : prog unit :=
  set_fg (set_rss_description d).

(** [fg.add_entry()]: a new [FeedEntry] object; the parameter [order] is left
    at its default ['prepend'], so the object goes to the front of the feed's
    list ([self.__feed_entries.insert(0, feedEntry)]). *)
Definition add_entry : prog ref :=
  fun h =>
    let fe := length (objects h) in
    (Ok fe,
     mkHeap (set_feed_entries (fe :: feed_entries (fg h)) (fg h))
            (objects h ++ [mkFeedEntry None None None])).

(** [fe.title(t)], [fe.description(d)] *)
Definition FeedEntry_title (fe : ref) (t : str) : prog unit :=
  set_fe fe (fun e => mkFeedEntry (Some t) (entry_description e)
                        (entry_pubDate e)).

Definition FeedEntry_description (fe : ref) (d : str) : prog unit :=
  set_fe fe (fun e => mkFeedEntry (entry_title e) (Some d) (entry_pubDate e)).

(** [fe.pubDate(dt)]: refuses a naive [datetime]. *)
Definition FeedEntry_pubDate (fe : ref) (dt : datetime) : prog unit :=
  match tzinfo dt with
  | None => lift (Raise (ValueError no_timezone_info))
  | Some _ =>
      set_fe fe (fun e => mkFeedEntry (entry_title e) (entry_description e)
                            (Some dt))
  end.

(** The RSS document: the children of [channel] in document order.  Dates
    are kept as values; [formatRFC2822] prints them with
    ['%a, %d %b %Y %H:%M:%S %z']. *)
Record rss_item := mkItem {
  item_title : option str;
  item_description : option str;
  item_pubDate : option datetime
}.

Record rss := mkRss {
  channel_title : str;
  channel_link : str;
  channel_description : str;
  channel_docs : str;
  channel_generator : str;
  channel_lastBuildDate : datetime;
  channel_items : list rss_item
}.

(** lxml, when an element is given its text ([elem.text = s], through
    [_utf8]): the text is encoded, which fails on a surrogate, and every
    character of it must be an XML character: tab, line feed, carriage return,
    or anything from the space on but U+FFFE and U+FFFF. *)
Definition is_surrogate (c : char) : bool := in_range 55296%N 57343%N c.

Definition xml_char (c : char) : bool :=
  ((c =? 9) || (c =? 10) || (c =? 13) ||
   ((32 <=? c) && negb (c =? 65534) && negb (c =? 65535)))%N.

Definition utf8_error (s : str) : option value_error :=
  if existsb is_surrogate s then Some surrogates_not_allowed
  else if forallb xml_char s then None
  else Some not_xml_compatible.

Definition set_text (s : str) : result str :=
  match utf8_error s with
  | None => Ok s
  | Some why => Raise (ValueError why)
  end.

(** The text of a child that is written only when its field is true. *)
Definition set_text_if (o : option str) : result (option str) :=
  match o with
  | None => Ok None
  | Some s =>
      match set_text s with
      | Ok s' => Ok (Some s')
      | Raise e => Raise e
      end
  end.

(** [FeedEntry.rss_entry]: an [item] needs a title or a description; each
    child is written when its field is true, the title before the
    description. *)
Definition rss_entry (e : FeedEntry) : result rss_item :=
  match truthy (entry_title e), truthy (entry_description e) with
  | None, None => Raise (ValueError required_fields_not_set)
  | t, d =>
      match set_text_if t with
      | Raise x => Raise x
      | Ok title =>
          match set_text_if d with
          | Raise x => Raise x
          | Ok description => Ok (mkItem title description (entry_pubDate e))
          end
      end
  end.

(** The loop of [_create_rss] over [self.__feed_entries], front to back. *)
Fixpoint rss_entries (objs : list FeedEntry) (refs : list ref)
  : result (list rss_item) :=
  match refs with
  | [] => Ok []
  | r :: refs' =>
      match rss_entry (nth r objs (mkFeedEntry None None None)) with
      | Raise e => Raise e
      | Ok i =>
          match rss_entries objs refs' with
          | Raise e => Raise e
          | Ok rest => Ok (i :: rest)
          end
      end
  end.

(** The children of [channel] in front of the items: title, link and
    description are required; every text goes through lxml. *)
Definition rss_channel (g : FeedGenerator) : result (list rss_item -> rss) :=
  match truthy (rss_title g), truthy (rss_link g),
        truthy (rss_description g) with
  | Some t, Some l, Some d =>
      match set_text t, set_text l, set_text d,
            set_text (rss_docs g), set_text (rss_generator g) with
      | Ok title, Ok link, Ok description, Ok docs, Ok generator =>
          Ok (mkRss title link description docs generator
                (rss_lastBuildDate g))
      | Raise e, _, _, _, _ => Raise e
      | _, Raise e, _, _, _ => Raise e
      | _, _, Raise e, _, _ => Raise e
      | _, _, _, Raise e, _ => Raise e
      | _, _, _, _, Raise e => Raise e
      end
  | _, _, _ => Raise (ValueError required_fields_not_set)
  end.

(** [_create_rss]: the channel, then the items.  It only reads the feed. *)
Definition create_rss : prog rss :=
  fun h =>
    match rss_channel (fg h) with
    | Raise e => (Raise e, h)
    | Ok channel =>
        match rss_entries (objects h) (feed_entries (fg h)) with
        | Raise e => (Raise e, h)
        | Ok its => (Ok (channel its), h)
        end
    end.

End Feedgen.
Export Feedgen.

(* ================================================================== *)
(** ** The script *)

Module Md2rss.

(** [markdown2.markdown]: the rendering of markdown to HTML is a parameter. *)
Class Markdown2 := { markdown : str -> str }.

(** [central = zoneinfo.ZoneInfo('America/Chicago')] *)
Definition central : zone := America_Chicago.

(** An element of [items]: the pair [(date, content)]. *)
Definition NewsItem : Type := str * str.

(** [sections = re.split(r'^## ', md, flags=re.MULTILINE)[1:]] *)
Definition sections (md : str) : list str := tl (re_split_h2 md).

(** The body of the inner loop:
    [line = line.strip(); if line.startswith('- '): items.append(...)]. *)
Definition scan_line (date : str) (items : list NewsItem) (line : str)
  : list NewsItem :=
  let line := strip line in
  if startswith (py "- ") line then
    let content := slice_from 2 line in
    items ++ [(date, content)]
  else items.

(** The body of the outer loop, for one [section]. *)
Definition scan_section (items : list NewsItem) (section : str)
  : list NewsItem :=
  let lines := splitlines (strip section) in
  match lines with
  | [] => items
  | line0 :: lines1 =>
      let date := strip line0 in
      fold_left (scan_line date) lines1 items
  end.

(** [items] after the loop over [sections]. *)
Definition items (md : str) : list NewsItem :=
  fold_left scan_section (sections md) [].

Definition result_map {A B} (f : A -> B) (r : result A) : result B :=
  match r with
  | Ok a => Ok (f a)
  | Raise e => Raise e
  end.

(** The files of the working directory the script touches. *)
Record files := mkFiles {
  newsfeed_md : option str;
  newsfeed_xml : option rss
}.

Section Script.
Context `{UnicodeData} `{Markdown2}.

(** The [try] statement of the second loop. *)
Definition pubdate (date : str) : result datetime :=
  try_except_ValueError
    (result_map (replace_tzinfo central)
       (strptime date (py "%Y-%m-%d %H:%M")))
    (result_map (replace_tzinfo central)
       (strptime date (py "%Y-%m-%d"))).

(** The body of the second loop. *)
Definition feed_entry (item : NewsItem) : prog unit :=
  let '(date, content) := item in
  fe <- add_entry ;;
  FeedEntry_title fe (slice_to 60 content) ;;
  FeedEntry_description fe (markdown content) ;;
  pubdate <- lift (pubdate date) ;;
  FeedEntry_pubDate fe pubdate.

(** From [fg.title(...)] to the document [fg.rss_file] serialises. *)
Definition build (items : list NewsItem) : prog rss :=
  FeedGenerator_title (py "SQL Saturday News") ;;
  FeedGenerator_link (py "https://github.com/KennyNeal/SQL-Saturday-2025") ;;
  FeedGenerator_description
    (py "Latest news and updates for SQL Saturday Baton Rouge 2025") ;;
  for_each items feed_entry ;;
  create_rss.

(** One run: [now] is the clock when [FeedGenerator()] is called, [fs] the
    files before the run.  The result is how the interpreter stops and the
    files after the run; [newsfeed.xml] is written by the last statement
    only.  [md] is the text [f.read()] returns. *)
Definition main (now : datetime) (fs : files) : result unit * files :=
  match newsfeed_md fs with
  | None => (Raise FileNotFoundError, fs)
  | Some md =>
      match build (items md) (mkHeap (FeedGenerator_init now) []) with
      | (Ok doc, _) => (Ok tt, mkFiles (newsfeed_md fs) (Some doc))
      | (Raise e, _) => (Raise e, fs)
      end
  end.

(** The exit status of the interpreter: an uncaught exception makes it 1. *)
Definition exit_status (r : result unit) : Z :=
  match r with
  | Ok _ => 0%Z
  | Raise _ => 1%Z
  end.
End Script.

End Md2rss.
Export Md2rss.

(* ================================================================== *)
(** ** What the specification says, in its own words

    Definitions that follow the wording of the specification rather than the
    script; the theorems compare the two. *)

Module Spec.

(** A line with the whitespace around it trimmed, read off the line: the
    whitespace in front is passed over; from the first other character on, a
    character is kept when it is not whitespace or when a character that is
    not whitespace comes behind it. *)
Fixpoint trim_back (s : str) : str :=
  match s with
  | [] => []
  | c :: s1 =>
      match trim_back s1 with
      | [] => if is_space c then [] else [c]
      | t => c :: t
      end
  end.

Fixpoint trimmed (s : str) : str :=
  match s with
  | [] => []
  | c :: s1 => if is_space c then trimmed s1 else trim_back s
  end.

(** "A line qualifies as an item if and only if [after trimming] it starts
    with the two-character prefix [- ].  Its content is everything after that
    prefix." *)
Definition bullet_content (line : str) : option str :=
  match trimmed line with
  | c1 :: c2 :: content =>
      if ((c1 =? ch "-") && (c2 =? ch " "))%N then Some content else None
  | _ => None
  end.

Definition is_bullet (line : str) : bool :=
  match bullet_content line with
  | Some _ => true
  | None => false
  end.

Definition count_bullets (lines : list str) : nat :=
  length (filter is_bullet lines).

(** The lines of a text, read off the text character by character.  [cur]
    is the line being read, its last character first.  A line ends at a line
    boundary or with the text; a carriage return and the line feed right
    behind it are one boundary ([after_cr] says that the previous character
    was a carriage return); nothing behind the last boundary is no line. *)
Fixpoint lines_from (cur : str) (after_cr : bool) (s : str) : list str :=
  match s with
  | [] => match cur with [] => [] | _ :: _ => [rev cur] end
  | c :: s1 =>
      if after_cr && (c =? 10)%N then lines_from [] false s1
      else if is_linebreak c then rev cur :: lines_from [] (c =? 13)%N s1
      else lines_from (c :: cur) false s1
  end.

Definition text_lines (s : str) : list str := lines_from [] false s.

(** The texts of the sections, read off the document character by
    character.  A section starts behind a marker [## ] that begins a line
    (at the start of the document or right behind a line feed) and runs up to
    the next such marker or the end of the document.  [cur] is the section
    being read, its last character first, [None] in front of the first
    marker; [skip] counts the characters of a marker still to pass over. *)
Fixpoint sections_from (bol : bool) (skip : nat) (cur : option str) (s : str)
  : list str :=
  match s with
  | [] => match cur with Some r => [rev r] | None => [] end
  | c :: s1 =>
      match skip with
      | S k => sections_from false k cur s1
      | O =>
          if bol && startswith (py "## ") s then
            match cur with Some r => [rev r] | None => [] end
            ++ sections_from false 2 (Some []) s1
          else sections_from (c =? 10)%N 0 (option_map (cons c) cur) s1
      end
  end.

Definition section_texts (md : str) : list str := sections_from true 0 None md.

(** "The total count of [- ]-prefixed lines across all sections", its first
    line, the rest of the heading line, not being counted in any section. *)
Definition bullet_count (md : str) : nat :=
  list_sum (map (fun section => count_bullets (tl (text_lines section)))
              (section_texts md)).

(** "The remainder of the first line (after the heading marker) is the
    section's raw date string; trim surrounding whitespace." *)
Definition heading_text (section : str) : str :=
  trimmed (hd [] (text_lines section)).

(** The item of a line under the date [date]. *)
Definition line_item (date line : str) : list NewsItem :=
  match bullet_content line with
  | Some content => [(date, content)]
  | None => []
  end.

(** The items of a section, read off its lines: blank lines in front are
    passed over, the first line with text gives the date, and every bullet
    line behind that line gives an item. *)
Fixpoint lines_items (lines : list str) : list NewsItem :=
  match lines with
  | [] => []
  | l :: ls =>
      match trimmed l with
      | [] => lines_items ls
      | _ :: _ => flat_map (line_item (trimmed l)) ls
      end
  end.

(** The loop body of the script as a function of the section. *)
Definition section_items (section : str) : list NewsItem :=
  match splitlines (strip section) with
  | [] => []
  | line0 :: lines1 => flat_map (line_item (strip line0)) lines1
  end.

(** Zero-padded decimal fields. *)
Definition digit_char (n : Z) : char := Z.to_N (48 + n mod 10).

Definition pad2 (n : Z) : str := [digit_char (n / 10); digit_char n].

Definition pad4 (n : Z) : str :=
  [digit_char (n / 1000); digit_char (n / 100); digit_char (n / 10);
   digit_char n].

(** The text of a date in the layout [YYYY-MM-DD], and of a date and time in
    the layout [YYYY-MM-DD HH:MM]. *)
Definition render_date (y m d : Z) : str :=
  pad4 y ++ ch "-" :: pad2 m ++ ch "-" :: pad2 d.

Definition render_minute (y m d h mi : Z) : str :=
  render_date y m d ++ ch " " :: pad2 h ++ ch ":" :: pad2 mi.

Definition ascii_digit (c : char) : bool := in_range 48%N 57%N c.

(** The shape of the two layouts: ASCII digits and separators at fixed
    places, nothing else. *)
Definition date_shape (s : str) : bool :=
  match s with
  | [y1; y2; y3; y4; s1; m1; m2; s2; d1; d2] =>
      forallb ascii_digit [y1; y2; y3; y4; m1; m2; d1; d2] &&
      (s1 =? ch "-")%N && (s2 =? ch "-")%N
  | _ => false
  end.

Definition literal_shape (s : str) : bool :=
  date_shape s ||
  (date_shape (firstn 10 s) &&
   match skipn 10 s with
   | [s3; h1; h2; s4; n1; n2] =>
       forallb ascii_digit [h1; h2; n1; n2] &&
       (s3 =? ch " ")%N && (s4 =? ch ":")%N
   | _ => false
   end).

Section WithLibraries.
Context `{UnicodeData} `{Markdown2}.

(** The date string is accepted by one of the two attempts. *)
Definition parses (date : str) : bool :=
  match pubdate date with
  | Ok _ => true
  | Raise _ => false
  end.

(** "Well-formed": the date string of every section parses. *)
Definition well_formed (md : str) : bool :=
  forallb (fun section => parses (heading_text section)) (section_texts md).

(** The date of the first item, in order, whose date is rejected. *)
Definition first_bad_date (items : list NewsItem) : option str :=
  option_map fst (find (fun item => negb (parses (fst item))) items).

Definition parsed (date : str) : option datetime :=
  match pubdate date with
  | Ok dt => Some dt
  | Raise _ => None
  end.

(** The per-item transform: title cut at 60 characters, description the
    rendered content, publication date the parsed date. *)
Definition entry_of (item : NewsItem) (published : option datetime)
  : FeedEntry :=
  mkFeedEntry (Some (slice_to 60 (snd item))) (Some (markdown (snd item)))
    published.

(** The [item] element of an entry: a child for each field that is set
    and not empty. *)
Definition item_elem (item : NewsItem) : rss_item :=
  mkItem (truthy (Some (slice_to 60 (snd item))))
         (truthy (Some (markdown (snd item))))
         (parsed (fst item)).

(** What the XML writer has against an item: against its title, else
    against its description. *)
Definition item_error (item : NewsItem) : option value_error :=
  match utf8_error (slice_to 60 (snd item)) with
  | Some why => Some why
  | None => utf8_error (markdown (snd item))
  end.

(** The first complaint of the writer, going through the items in the
    order given. *)
Fixpoint first_refused (its : list NewsItem) : option value_error :=
  match its with
  | [] => None
  | item :: rest =>
      match item_error item with
      | Some why => Some why
      | None => first_refused rest
      end
  end.

(** The document of a run at time [now] whose items are [its]. *)
Definition feed_document (now : datetime) (its : list rss_item) : rss :=
  mkRss (py "SQL Saturday News")
    (py "https://github.com/KennyNeal/SQL-Saturday-2025")
    (py "Latest news and updates for SQL Saturday Baton Rouge 2025")
    (py "http://www.rssboard.org/rss-specification")
    (py "python-feedgen")
    (replace_tzinfo tzutc now) its.

End WithLibraries.

End Spec.
Export Spec.

(* ================================================================== *)
(** ** Sample inputs and instances *)

Module Samples.

Definition nl : str := [10%N].

(** An interpreter whose Unicode database knows the ASCII digits only, and
    a renderer that wraps the text in a paragraph. *)
Definition ascii_only : UnicodeData := {| nonascii_decimal := fun _ => None |}.
Definition paragraph : Markdown2 :=
  {| markdown := fun s => py "<p>" ++ s ++ py "</p>" |}.
(** Zone data that put the years before 2007 six hours behind UTC
    throughout: the theorems hold for any data. *)
Definition cst_always : TzData :=
  {| central_before_2007 := fun _ => (-21600)%Z |}.

Definition two_bullets : str :=
  py "## 2025-05-01" ++ nl ++ py "- first" ++ nl ++ py "- second" ++ nl.

Definition scenario : str :=
  py "## 2025-05-01" ++ nl ++ py "- Registration opens" ++ nl ++ nl ++
  py "## 2025-05-01 09:00" ++ nl ++ py "- Keynote speaker announced" ++ nl ++
  py "- Venue map published" ++ nl.

Definition bad_heading_only : str := py "## not-a-date" ++ nl.

(** A heading without text, and a bullet with a control character. *)
Definition blank_heading : str :=
  py "## " ++ nl ++ py "- a" ++ nl ++ py "- b" ++ nl.

Definition control_character : str :=
  py "## 2025-05-01" ++ nl ++ py "- a" ++ [1%N] ++ py "b" ++ nl.

Definition bad_date_second : str :=
  py "## 2025-05-01" ++ nl ++ py "- fine" ++ nl ++
  py "## not-a-date" ++ nl ++ py "- lost" ++ nl ++
  py "## also bad" ++ nl ++ py "- never reached" ++ nl.

Definition two_seasons : str :=
  py "## 2025-05-03" ++ nl ++ py "- spring" ++ nl ++
  py "## 2025-01-15" ++ nl ++ py "- winter" ++ nl.

Definition noon : datetime := mkDatetime 2025 11 3 12 0 0 None.

End Samples.

(* ================================================================== *)
(** ** The layout of a document *)

Module Layout.

(** The pieces of [re.split(r'^## ', ...)] put together again, the marker in
    front of every piece but the first. *)
Definition join_h2 (pieces : list str) : str :=
  match pieces with
  | [] => []
  | p :: ps => p ++ flat_map (fun q => py "## " ++ q) ps
  end.

(** Some line of the text begins with the marker [## ]; [bol] says whether
    the text starts at the beginning of a line. *)
Fixpoint has_heading (bol : bool) (s : str) : bool :=
  match s with
  | [] => false
  | c :: s1 =>
      (bol && startswith (py "## ") s) || has_heading (c =? 10)%N s1
  end.

(** The number of lines of the text that begin with the marker. *)
Fixpoint count_headings (bol : bool) (s : str) : nat :=
  match s with
  | [] => 0
  | c :: s1 =>
      (if bol && startswith (py "## ") s then 1 else 0)
      + count_headings (c =? 10)%N s1
  end.

(** A log without any level-two heading, and one that grows by a section. *)
Definition no_heading : str :=
  py "Welcome" ++ [10%N] ++ py "### History" ++ [10%N] ++
  py "- a stray bullet ## not at the start of a line" ++ [10%N].

Definition old_log : str :=
  py "News" ++ [10%N] ++ py "## 2025-05-01" ++ [10%N] ++
  py "- Registration opens" ++ [10%N].

Definition new_section : str :=
  py "2025-05-02 09:00" ++ [10%N] ++ py "- Keynote speaker announced" ++
  [10%N] ++ py "- Venue map published" ++ [10%N].

End Layout.
Export Layout.

(* ================================================================== *)
(** ** Facts about the string operations *)

Section StringFacts.
Local Open Scope N_scope.

Lemma is_linebreak_space c : is_linebreak c = true -> is_space c = true.
Proof.
  unfold is_linebreak, is_space, in_range.
  rewrite !orb_true_iff, !andb_true_iff, !N.leb_le, !N.eqb_eq.
  intros Hc.
  assert (Hcases : (9 <= c /\ c <= 13) \/ (28 <= c /\ c <= 32) \/ c = 133 \/
                   c = 8232 \/ c = 8233) by lia.
  clear Hc.
  destruct Hcases as [Hr | [Hr | [Hr | [Hr | Hr]]]]; tauto.
Qed.

Lemma lstrip_head s c t : lstrip s = c :: t -> is_space c = false.
Proof.
  induction s as [|a s IH]; simpl; [discriminate|].
  destruct (is_space a) eqn:Ha; [exact IH|].
  intros E; injection E as -> _; exact Ha.
Qed.

(** Stripping on the left of a concatenation. *)
Lemma lstrip_app a b :
  lstrip (a ++ b) = match lstrip a with [] => lstrip b | r => r ++ b end.
Proof.
  induction a as [|c a IH]; simpl; [reflexivity|].
  destruct (is_space c); [exact IH | reflexivity].
Qed.

(** [rstrip] by recursion from the left: a character stays unless it is
    whitespace and nothing but whitespace follows. *)
Lemma rstrip_cons c s :
  rstrip (c :: s) =
  match rstrip s with
  | [] => if is_space c then [] else [c]
  | r => c :: r
  end.
Proof.
  unfold rstrip; simpl rev.
  rewrite lstrip_app.
  destruct (lstrip (rev s)) as [|x u] eqn:E.
  - simpl. destruct (is_space c); reflexivity.
  - rewrite rev_app_distr. simpl.
    destruct (rev u ++ [x]) eqn:E2; [|reflexivity].
    destruct (rev u); discriminate.
Qed.

Lemma rstrip_last s t c : rstrip s = t ++ [c] -> is_space c = false.
Proof.
  unfold rstrip. intros E.
  apply (f_equal (@rev _)) in E.
  rewrite rev_involutive, rev_app_distr in E. simpl in E.
  exact (lstrip_head _ _ _ E).
Qed.

Lemma strip_last s t c : strip s = t ++ [c] -> is_space c = false.
Proof. unfold strip. apply rstrip_last. Qed.

Lemma strip_head s c t : strip s = c :: t -> is_space c = false.
Proof.
  unfold strip.
  destruct (lstrip s) as [|a u] eqn:E; [discriminate|].
  pose proof (lstrip_head _ _ _ E) as Ha.
  rewrite rstrip_cons, Ha.
  destruct (rstrip u); intros E2; injection E2 as <- _; exact Ha.
Qed.

(** A whitespace character in front of a line does not change what the line
    is after trimming. *)
Lemma strip_space_cons c s : is_space c = true -> strip (c :: s) = strip s.
Proof. intros Hc. unfold strip. simpl. rewrite Hc. reflexivity. Qed.

(** Trimming first on the right and then on the left is trimming. *)
Lemma lstrip_rstrip s : lstrip (rstrip s) = strip s.
Proof.
  unfold strip.
  induction s as [|c s IH]; [reflexivity|].
  rewrite rstrip_cons. simpl lstrip at 2.
  destruct (is_space c) eqn:Hc.
  - rewrite <- IH. destruct (rstrip s); simpl; rewrite ?Hc; reflexivity.
  - rewrite rstrip_cons, Hc.
    destruct (rstrip s); simpl; rewrite Hc; reflexivity.
Qed.

End StringFacts.

(* ================================================================== *)
(** ** The extractor *)

Section Extractor.
Local Open Scope N_scope.

Lemma startswith_iff p s :
  startswith p s = true <-> exists t, s = p ++ t.
Proof.
  revert s; induction p as [|a p IH]; intros s; simpl.
  - split; [intros _; exists s; reflexivity | reflexivity].
  - destruct s as [|b s].
    + split; [discriminate | intros [t Ht]; discriminate].
    + rewrite andb_true_iff, N.eqb_eq, IH. split.
      * intros [-> [t ->]]. exists t; reflexivity.
      * intros [t Ht]. injection Ht as -> ->. split; [reflexivity | now exists t].
Qed.

(** Trimming a line read off its characters is [str.strip]. *)
Lemma trim_back_rstrip s : trim_back s = rstrip s.
Proof.
  induction s as [|c s IH]; [reflexivity|].
  cbn [trim_back]. rewrite IH, rstrip_cons. reflexivity.
Qed.

Lemma trimmed_strip s : trimmed s = strip s.
Proof.
  induction s as [|c s IH]; [reflexivity|]. cbn [trimmed].
  destruct (is_space c) eqn:Hc.
  - rewrite IH, strip_space_cons by assumption. reflexivity.
  - rewrite trim_back_rstrip. unfold strip. cbn [lstrip]. rewrite Hc.
    reflexivity.
Qed.

(** The content of a bullet line is what [startswith] and the slice of the
    script give. *)
Lemma bullet_content_strip line :
  bullet_content line
  = if startswith (py "- ") (strip line)
    then Some (slice_from 2 (strip line)) else None.
Proof.
  unfold bullet_content. rewrite trimmed_strip.
  destruct (strip line) as [|c1 [|c2 content]]; [reflexivity| |].
  - change (startswith (py "- ") [c1]) with ((45 =? c1) && false).
    rewrite andb_false_r. reflexivity.
  - change (startswith (py "- ") (c1 :: c2 :: content))
      with ((45 =? c1) && ((32 =? c2) && true)).
    rewrite andb_true_r, (N.eqb_sym c1), (N.eqb_sym c2). reflexivity.
Qed.

Lemma is_bullet_strip line :
  is_bullet line = startswith (py "- ") (strip line).
Proof.
  unfold is_bullet. rewrite bullet_content_strip.
  destruct (startswith (py "- ") (strip line)); reflexivity.
Qed.

Lemma line_item_unfold date line :
  line_item date line
  = if is_bullet line then [(date, slice_from 2 (strip line))] else [].
Proof.
  unfold line_item. rewrite is_bullet_strip, bullet_content_strip.
  destruct (startswith (py "- ") (strip line)); reflexivity.
Qed.

Lemma is_bullet_iff line :
  is_bullet line = true <-> exists content, strip line = py "- " ++ content.
Proof. rewrite is_bullet_strip. apply startswith_iff. Qed.

(** The loop body appends what the line contributes. *)
Lemma scan_line_spec date items line :
  scan_line date items line = items ++ line_item date line.
Proof.
  unfold scan_line. rewrite line_item_unfold, is_bullet_strip.
  destruct (startswith (py "- ") (strip line));
    [reflexivity | symmetry; apply app_nil_r].
Qed.

Lemma fold_scan_line date lines : forall items,
  fold_left (scan_line date) lines items
  = items ++ flat_map (line_item date) lines.
Proof.
  induction lines as [|l lines IH]; intros items; simpl.
  - symmetry; apply app_nil_r.
  - rewrite IH, scan_line_spec, <- app_assoc. reflexivity.
Qed.

Lemma scan_section_spec items section :
  scan_section items section = items ++ section_items section.
Proof.
  unfold scan_section, section_items.
  destruct (splitlines (strip section)) as [|line0 lines1].
  - symmetry; apply app_nil_r.
  - apply fold_scan_line.
Qed.

Lemma fold_scan_section secs : forall items,
  fold_left scan_section secs items = items ++ flat_map section_items secs.
Proof.
  induction secs as [|s secs IH]; intros items; simpl.
  - symmetry; apply app_nil_r.
  - rewrite IH, scan_section_spec, <- app_assoc. reflexivity.
Qed.

(** [items] is the concatenation, section by section and line by line, of
    what each line contributes. *)
Lemma items_spec md : items md = flat_map section_items (sections md).
Proof. unfold items. apply fold_scan_section. Qed.

Lemma line_item_content date line item :
  In item (line_item date line) ->
  fst item = date /\ strip line = py "- " ++ snd item.
Proof.
  rewrite line_item_unfold. destruct (is_bullet line) eqn:Hb; [|intros []].
  intros [<- | []]. split; [reflexivity|].
  apply is_bullet_iff in Hb. destruct Hb as [c Hc].
  rewrite Hc. reflexivity.
Qed.

Lemma section_items_content section item :
  In item (section_items section) ->
  exists line, strip line = py "- " ++ snd item.
Proof.
  unfold section_items.
  destruct (splitlines (strip section)) as [|line0 lines1]; [intros []|].
  rewrite in_flat_map. intros [line [_ Hin]].
  exists line. eapply line_item_content; eassumption.
Qed.

Lemma items_content md item :
  In item (items md) -> exists line, strip line = py "- " ++ snd item.
Proof.
  rewrite items_spec, in_flat_map. intros [section [_ Hin]].
  eapply section_items_content; eassumption.
Qed.

(** What is left of a trimmed line behind the marker [- ] ends in a
    character that is not whitespace. *)
Lemma content_after_marker line content :
  strip line = py "- " ++ content ->
  exists front c, content = front ++ [c] /\ is_space c = false.
Proof.
  intros E.
  destruct (rev content) as [|c rfront] eqn:Er.
  - apply (f_equal (@rev _)) in Er. rewrite rev_involutive in Er. subst content.
    change (strip line = [ch "-"] ++ [ch " "]) in E.
    apply strip_last in E. discriminate.
  - apply (f_equal (@rev _)) in Er. rewrite rev_involutive in Er. simpl in Er.
    exists (rev rfront), c. split; [exact Er|].
    subst content. rewrite app_assoc in E. exact (strip_last _ _ _ E).
Qed.

Lemma lstrip_spaces_app w s :
  Forall (fun c => is_space c = true) w -> lstrip (w ++ s) = lstrip s.
Proof.
  induction 1 as [|c w Hc _ IH]; [reflexivity|]. simpl. now rewrite Hc.
Qed.

Lemma rstrip_spaces w :
  Forall (fun c => is_space c = true) w -> rstrip w = [].
Proof.
  induction 1 as [|c w Hc _ IH]; [reflexivity|].
  rewrite rstrip_cons, IH, Hc. reflexivity.
Qed.

(** A dash with nothing but whitespace around it is no bullet. *)
Lemma dash_alone_not_bullet before after :
  Forall (fun c => is_space c = true) before ->
  Forall (fun c => is_space c = true) after ->
  is_bullet (before ++ ch "-" :: after) = false.
Proof.
  intros Hb Ha. rewrite is_bullet_strip. unfold strip.
  rewrite (lstrip_spaces_app _ _ Hb).
  change (lstrip (ch "-" :: after)) with (ch "-" :: after).
  rewrite rstrip_cons, (rstrip_spaces _ Ha). reflexivity.
Qed.

Lemma length_line_items date lines :
  length (flat_map (line_item date) lines) = count_bullets lines.
Proof.
  unfold count_bullets.
  induction lines as [|l lines IH]; simpl; [reflexivity|].
  rewrite length_app, IH, line_item_unfold.
  destruct (is_bullet l); reflexivity.
Qed.

End Extractor.

(* ================================================================== *)
(** ** Lines of a text before and after trimming the text *)

Section Lines.
Local Open Scope N_scope.

(** The text behind a line boundary is the text or its tail. *)
Lemma after_break_cases c s :
  after_break c s = s \/ exists s', s = 10 :: s' /\ after_break c s = s'.
Proof.
  destruct s as [|c' s']; simpl; [left; reflexivity|].
  destruct ((c =? 13) && (c' =? 10)) eqn:E; [|left; reflexivity].
  apply andb_true_iff in E. destruct E as [_ E]. apply N.eqb_eq in E.
  subst c'. right. exists s'. split; reflexivity.
Qed.

Lemma after_break_app c s w :
  s <> [] -> after_break c (s ++ w) = after_break c s ++ w.
Proof.
  destruct s as [|c' s']; [congruence|]. intros _. simpl.
  destruct ((c =? 13) && (c' =? 10)); reflexivity.
Qed.

Lemma after_break_length c s : (length (after_break c s) <= length s)%nat.
Proof.
  destruct (after_break_cases c s) as [-> | [s' [-> ->]]]; simpl; lia.
Qed.

Lemma splitlines_nil_inv s : splitlines s = [] -> s = [].
Proof.
  destruct s as [|c s]; [reflexivity|]. simpl.
  destruct (is_linebreak c); [discriminate|].
  destruct (splitlines s); discriminate.
Qed.

Lemma is_bullet_blank l : strip l = [] -> is_bullet l = false.
Proof. rewrite is_bullet_strip. intros ->. reflexivity. Qed.

Lemma rstrip_blank_strip l : rstrip l = [] -> strip l = [].
Proof. intros E. rewrite <- lstrip_rstrip, E. reflexivity. Qed.

(** Every text is its right-trimmed part followed by whitespace. *)
Lemma rstrip_split s :
  exists w, s = rstrip s ++ w /\ Forall (fun c => is_space c = true) w.
Proof.
  induction s as [|c s [w [Hs Hw]]].
  - exists []. split; [reflexivity | constructor].
  - rewrite rstrip_cons.
    destruct (rstrip s) as [|r rs] eqn:Er.
    + simpl in Hs. destruct (is_space c) eqn:Hc.
      * exists (c :: s). split; [reflexivity|]. subst s. constructor; assumption.
      * exists s. split; [reflexivity|]. subst s. assumption.
    + exists w. split; [|assumption]. simpl. f_equal. exact Hs.
Qed.

(** The lines of a text made of whitespace are blank. *)
Lemma splitlines_blank n : forall w,
  (length w <= n)%nat ->
  Forall (fun c => is_space c = true) w ->
  Forall (fun l => rstrip l = []) (splitlines w).
Proof.
  induction n as [|n IH]; intros w Hn Hw.
  - destruct w; [constructor | simpl in Hn; lia].
  - destruct w as [|c w]; [constructor|].
    inversion Hw as [|? ? Hc Hw']; subst. simpl in Hn. simpl.
    destruct (is_linebreak c).
    + constructor; [reflexivity|]. apply IH.
      * pose proof (after_break_length c w). lia.
      * destruct (after_break_cases c w) as [-> | [s' [-> ->]]];
          [assumption | now inversion Hw'].
    + assert (Hrec : Forall (fun l => rstrip l = []) (splitlines w))
        by (apply IH; [lia | assumption]).
      destruct (splitlines w) as [|l ls].
      * constructor; [|constructor]. rewrite rstrip_cons. simpl. now rewrite Hc.
      * inversion Hrec as [|? ? Hl Hls]; subst.
        constructor; [|assumption]. rewrite rstrip_cons, Hl, Hc. reflexivity.
Qed.

(** Whitespace behind a text changes its lines only by trailing whitespace
    and by blank lines at the end. *)
Lemma splitlines_app_space n : forall t w,
  (length t <= n)%nat ->
  Forall (fun c => is_space c = true) w ->
  exists blanks,
    Forall (fun l => rstrip l = []) blanks /\
    Forall2 (fun l1 l2 => rstrip l1 = rstrip l2)
            (splitlines (t ++ w)) (splitlines t ++ blanks).
Proof.
  induction n as [|n IH]; intros t w Hn Hw.
  - destruct t; [|simpl in Hn; lia]. simpl.
    exists (splitlines w). split.
    + eapply splitlines_blank; [reflexivity | assumption].
    + clear. induction (splitlines w); constructor; auto.
  - destruct t as [|c t].
    { simpl. exists (splitlines w). split.
      - eapply splitlines_blank; [reflexivity | assumption].
      - clear. induction (splitlines w); constructor; auto. }
    simpl in Hn. simpl.
    destruct (is_linebreak c) eqn:Hb.
    + destruct t as [|c' t'].
      * simpl app. exists (splitlines (after_break c w)). split.
        -- eapply splitlines_blank; [reflexivity|].
           destruct (after_break_cases c w) as [-> | [s' [-> ->]]];
             [assumption | now inversion Hw].
        -- replace (after_break c []) with (@nil char) by reflexivity.
           simpl. constructor; [reflexivity|].
           clear. induction (splitlines (after_break c w)); constructor; auto.
      * rewrite after_break_app by discriminate.
        destruct (IH (after_break c (c' :: t')) w) as [blanks [Hbl Hrel]];
          [pose proof (after_break_length c (c' :: t')); lia | assumption |].
        exists blanks. split; [assumption|].
        simpl. constructor; [reflexivity | exact Hrel].
    + destruct (IH t w) as [blanks [Hbl Hrel]]; [lia | assumption |].
      destruct (splitlines t) as [|l2 ls2] eqn:Et.
      * simpl in Hrel.
        destruct (splitlines (t ++ w)) as [|l1 ls1].
        -- exists []. split; [constructor|]. simpl.
           constructor; [reflexivity | constructor].
        -- inversion Hrel as [|? b ? bs Hl Hls]; subst.
           inversion Hbl as [|? ? Hb1 Hbs]; subst.
           exists bs. split; [assumption|]. simpl.
           constructor; [|assumption].
           rewrite !rstrip_cons, Hl, Hb1. reflexivity.
      * simpl in Hrel.
        destruct (splitlines (t ++ w)) as [|l1 ls1]; [inversion Hrel|].
        inversion Hrel as [|? ? ? ? Hl Hls]; subst.
        exists blanks. split; [assumption|]. simpl.
        constructor; [|assumption].
        rewrite !rstrip_cons, Hl. reflexivity.
Qed.

(** Trimming a text on the left removes blank lines in front, and leaves
    every other line as it is after trimming. *)
Lemma splitlines_lstrip n : forall s,
  (length s <= n)%nat ->
  exists k,
    map strip (splitlines s)
    = repeat [] k ++ map strip (splitlines (lstrip s)).
Proof.
  induction n as [|n IH]; intros s Hn.
  - destruct s; [|simpl in Hn; lia]. exists 0%nat. reflexivity.
  - destruct s as [|c s]; [exists 0%nat; reflexivity|].
    simpl in Hn. simpl lstrip.
    destruct (is_space c) eqn:Hc; [|exists 0%nat; reflexivity].
    simpl splitlines.
    destruct (is_linebreak c) eqn:Hb.
    + destruct (after_break_cases c s) as [E | [s' [Es E]]]; rewrite E.
      * destruct (IH s) as [k Hk]; [lia|].
        exists (S k). simpl. rewrite Hk. reflexivity.
      * subst s. simpl in Hn.
        destruct (IH s') as [k Hk]; [lia|].
        exists (S k). simpl lstrip.
        replace (is_space 10) with true by reflexivity.
        simpl. rewrite Hk. reflexivity.
    + destruct (IH s) as [k Hk]; [lia|].
      destruct (splitlines s) as [|l ls] eqn:Es.
      * apply splitlines_nil_inv in Es. subst s.
        exists 1%nat. simpl. rewrite strip_space_cons by assumption.
        reflexivity.
      * exists k. simpl. rewrite strip_space_cons by assumption.
        exact Hk.
Qed.

End Lines.

(* ================================================================== *)
(** ** Cutting a document at its headings *)

Section Headings.
Local Open Scope N_scope.

Lemma split_h2_nonempty bol s : split_h2 bol s <> [].
Proof.
  destruct s as [|c s1]; [discriminate|]. simpl.
  assert (Hno : match split_h2 (c =? 10) s1 with
                | [] => [[c]]
                | p :: ps => (c :: p) :: ps
                end <> [])
    by (destruct (split_h2 (c =? 10) s1); discriminate).
  destruct (bol && (c =? 35)); [|exact Hno].
  destruct s1 as [|c2 [|c3 s3]]; try exact Hno.
  destruct ((c2 =? 35) && (c3 =? 32)); [discriminate | exact Hno].
Qed.

(** The step of [split_h2] on a character that starts no marker. *)
Lemma split_h2_cons_other bol c s1 :
  (bol && startswith (py "## ") (c :: s1)) = false ->
  split_h2 bol (c :: s1)
  = match split_h2 (c =? 10) s1 with
    | [] => [[c]]
    | p :: ps => (c :: p) :: ps
    end.
Proof.
  intros Hno. cbn [split_h2].
  change (startswith (py "## ") (c :: s1))
    with ((35 =? c) && startswith (py "# ") s1) in Hno.
  rewrite (N.eqb_sym c 35).
  destruct bol; [|reflexivity]. cbn [andb] in *.
  destruct (35 =? c); [|reflexivity]. cbn [andb] in *.
  destruct s1 as [|c2 [|c3 s3]]; try reflexivity.
  change (startswith (py "# ") (c2 :: c3 :: s3))
    with ((35 =? c2) && ((32 =? c3) && true)) in Hno.
  rewrite (N.eqb_sym c2 35), (N.eqb_sym c3 32).
  rewrite andb_true_r in Hno. rewrite Hno. reflexivity.
Qed.

(** The step of [split_h2] on a marker at the start of a line. *)
Lemma split_h2_marker s3 :
  split_h2 true (py "## " ++ s3) = [] :: split_h2 false s3.
Proof. reflexivity. Qed.

Lemma join_h2_cons_head c p ps :
  join_h2 ((c :: p) :: ps) = c :: join_h2 (p :: ps).
Proof. reflexivity. Qed.

Lemma join_h2_cons_nil qs :
  qs <> [] -> join_h2 ([] :: qs) = py "## " ++ join_h2 qs.
Proof.
  destruct qs as [|q qs]; [congruence|]. intros _.
  unfold join_h2. cbn [flat_map app]. rewrite <- app_assoc. reflexivity.
Qed.

Lemma split_h2_join n : forall bol s,
  (length s <= n)%nat -> join_h2 (split_h2 bol s) = s.
Proof.
  induction n as [|n IH]; intros bol s Hn.
  - destruct s; [reflexivity | simpl in Hn; lia].
  - destruct s as [|c s1]; [reflexivity|]. simpl in Hn.
    destruct (bol && startswith (py "## ") (c :: s1)) eqn:Hm.
    + apply andb_true_iff in Hm. destruct Hm as [-> Hm].
      apply startswith_iff in Hm. destruct Hm as [s3 Hs3]. rewrite Hs3.
      rewrite split_h2_marker, join_h2_cons_nil by apply split_h2_nonempty.
      rewrite IH; [reflexivity|].
      apply (f_equal (@length _)) in Hs3. rewrite length_app in Hs3.
      simpl in Hs3. lia.
    + rewrite (split_h2_cons_other _ _ _ Hm).
      specialize (IH (c =? 10) s1 ltac:(lia)).
      destruct (split_h2 (c =? 10) s1) as [|p ps].
      * simpl in IH. subst s1. reflexivity.
      * rewrite <- IH. reflexivity.
Qed.

End Headings.

Section HeadingsCompose.
Local Open Scope N_scope.

Lemma no_heading_one_piece s : forall bol,
  has_heading bol s = false -> split_h2 bol s = [s].
Proof.
  induction s as [|c s1 IH]; intros bol Hno; [reflexivity|].
  cbn [has_heading] in Hno. apply orb_false_iff in Hno.
  destruct Hno as [Hm Hrest].
  rewrite (split_h2_cons_other _ _ _ Hm), (IH _ Hrest). reflexivity.
Qed.

(** Whether a text that ends a line begins with the marker does not depend
    on what follows the text. *)
Lemma startswith_line (p : str) : ~ In 10 p -> forall (a x : str),
  startswith p ((a ++ [10]) ++ x) = startswith p (a ++ [10]).
Proof.
  induction p as [|q p IH]; intros Hp a x; [reflexivity|].
  assert (Hq : q <> 10) by (intros ->; apply Hp; left; reflexivity).
  assert (Hp' : ~ In 10 p) by (intros Hin; apply Hp; right; exact Hin).
  destruct a as [|c a]; cbn [app startswith].
  - destruct (N.eqb_spec q 10); [contradiction | reflexivity].
  - rewrite (IH Hp'). reflexivity.
Qed.

Lemma ends_line_behind_marker (a s3 : str) :
  a ++ [10] = py "## " ++ s3 -> exists a4 : str, s3 = a4 ++ [10].
Proof.
  destruct a as [|c1 [|c2 [|c3 a4]]]; try discriminate.
  intros E. injection E as _ _ _ E. exists a4. symmetry. exact E.
Qed.

Lemma cons_head_app (c : char) (X Y : list str) :
  X <> [] ->
  match X ++ Y with [] => [[c]] | p :: ps => (c :: p) :: ps end
  = match X with [] => [[c]] | p :: ps => (c :: p) :: ps end ++ Y.
Proof. destruct X; [congruence | reflexivity]. Qed.

(** A marker behind the end of a line cuts the text there: the pieces in
    front are those of the text in front, the pieces behind those of the
    text behind. *)
Lemma split_h2_app n : forall (a : str) bol (b : str),
  (length a <= n)%nat ->
  split_h2 bol ((a ++ [10]) ++ py "## " ++ b)
  = split_h2 bol (a ++ [10]) ++ split_h2 false b.
Proof.
  induction n as [|n IH]; intros a bol b Hn.
  - destruct a; [|simpl in Hn; lia]. destruct bol; reflexivity.
  - destruct a as [|c a1]; [destruct bol; reflexivity|].
    simpl in Hn.
    destruct (bol && startswith (py "## ") ((c :: a1) ++ [10])) eqn:Hm.
    + apply andb_true_iff in Hm. destruct Hm as [-> Hm].
      apply startswith_iff in Hm. destruct Hm as [s3 Hs3].
      destruct (ends_line_behind_marker _ _ Hs3) as [a4 ->].
      rewrite Hs3, <- app_assoc, !split_h2_marker.
      rewrite IH; [reflexivity|].
      apply (f_equal (@length _)) in Hs3.
      rewrite !length_app in Hs3. simpl in Hs3. lia.
    + assert (Hm' : (bol && startswith (py "## ")
                              (((c :: a1) ++ [10]) ++ py "## " ++ b)) = false).
      { rewrite startswith_line; [exact Hm|].
        intros [E | [E | [E | []]]]; discriminate E. }
      cbn [app] in *.
      rewrite (split_h2_cons_other _ _ _ Hm), (split_h2_cons_other _ _ _ Hm').
      rewrite IH by lia.
      apply cons_head_app, split_h2_nonempty.
Qed.

Lemma sections_app (a b : str) :
  a = [] \/ (exists a' : str, a = a' ++ [10]) ->
  sections (a ++ py "## " ++ b) = sections a ++ sections (py "## " ++ b).
Proof.
  unfold sections, re_split_h2. intros [-> | [a' ->]]; [reflexivity|].
  rewrite (split_h2_app (length a')) by reflexivity.
  rewrite split_h2_marker. cbn [tl].
  pose proof (split_h2_nonempty true (a' ++ [10])) as Hne.
  destruct (split_h2 true (a' ++ [10])); [congruence | reflexivity].
Qed.

Lemma items_app (a b : str) :
  a = [] \/ (exists a' : str, a = a' ++ [10]) ->
  items (a ++ py "## " ++ b) = items a ++ items (py "## " ++ b).
Proof.
  intros Ha. rewrite !items_spec, (sections_app _ _ Ha). apply flat_map_app.
Qed.

Lemma items_no_heading md : has_heading true md = false -> items md = [].
Proof.
  intros Hno. rewrite items_spec. unfold sections, re_split_h2.
  rewrite (no_heading_one_piece _ _ Hno). reflexivity.
Qed.

End HeadingsCompose.

(* ================================================================== *)
(** ** What the extractor keeps and what it ignores *)

Section Trimming.
Local Open Scope N_scope.

Lemma lstrip_spaces w :
  Forall (fun c => is_space c = true) w -> lstrip w = [].
Proof.
  induction 1 as [|c w Hc _ IH]; [reflexivity|]. simpl. now rewrite Hc.
Qed.

Lemma rstrip_app_spaces s w :
  Forall (fun c => is_space c = true) w -> rstrip (s ++ w) = rstrip s.
Proof.
  intros Hw. unfold rstrip. rewrite rev_app_distr.
  rewrite lstrip_spaces_app; [reflexivity|].
  apply Forall_forall. intros c Hc. rewrite <- in_rev in Hc.
  rewrite Forall_forall in Hw. auto.
Qed.

(** Whitespace around a text does not change its trimming. *)
Lemma strip_surrounded w1 s w2 :
  Forall (fun c => is_space c = true) w1 ->
  Forall (fun c => is_space c = true) w2 ->
  strip (w1 ++ s ++ w2) = strip s.
Proof.
  intros H1 H2. unfold strip.
  rewrite (lstrip_spaces_app _ _ H1), lstrip_app.
  destruct (lstrip s) as [|c r] eqn:E.
  - rewrite (lstrip_spaces _ H2). reflexivity.
  - apply rstrip_app_spaces. exact H2.
Qed.

Lemma lstrip_fixed s : lstrip (lstrip s) = lstrip s.
Proof.
  induction s as [|a s IH]; simpl; [reflexivity|].
  destruct (is_space a) eqn:Ha; [exact IH|].
  simpl; rewrite Ha; reflexivity.
Qed.

Lemma strip_fixed s : strip (strip s) = strip s.
Proof.
  rewrite <- (lstrip_rstrip (strip s)).
  assert (Hr : rstrip (strip s) = strip s).
  { unfold strip, rstrip. rewrite rev_involutive, lstrip_fixed. reflexivity. }
  rewrite Hr, <- lstrip_rstrip. apply lstrip_fixed.
Qed.

Lemma lstrip_incl s c : In c (lstrip s) -> In c s.
Proof.
  induction s as [|a s IH]; simpl; [auto|].
  destruct (is_space a); [auto | exact (fun H => H)].
Qed.

Lemma strip_incl s c : In c (strip s) -> In c s.
Proof.
  unfold strip, rstrip. intros Hc.
  rewrite <- in_rev in Hc. apply lstrip_incl in Hc.
  rewrite <- in_rev in Hc. apply lstrip_incl. exact Hc.
Qed.

(** No line of [splitlines] holds a line boundary. *)
Lemma splitlines_no_break n : forall s,
  (length s <= n)%nat ->
  forall l c, In l (splitlines s) -> In c l -> is_linebreak c = false.
Proof.
  induction n as [|n IH]; intros s Hn l c Hl Hc.
  - destruct s; [destruct Hl | simpl in Hn; lia].
  - destruct s as [|a s]; [destruct Hl|]. simpl in Hn, Hl.
    destruct (is_linebreak a) eqn:Ha.
    + destruct Hl as [<- | Hl]; [destruct Hc|].
      apply (IH (after_break a s)) with (l := l); try assumption.
      pose proof (after_break_length a s). lia.
    + assert (Hrec : forall l, In l (splitlines s) ->
                               In c l -> is_linebreak c = false)
        by (intros l' Hl'; apply (IH s) with (l := l'); [lia | exact Hl']).
      destruct (splitlines s) as [|l0 ls].
      * destruct Hl as [<- | []]. destruct Hc as [<- | []]. exact Ha.
      * destruct Hl as [<- | Hl].
        -- destruct Hc as [<- | Hc]; [exact Ha|].
           apply (Hrec l0); [left; reflexivity | exact Hc].
        -- apply (Hrec l); [right; exact Hl | exact Hc].
Qed.

(** The first line of a trimmed text is not blank. *)
Lemma first_line_not_blank s line0 lines1 :
  splitlines (strip s) = line0 :: lines1 -> strip line0 <> [].
Proof.
  destruct (strip s) as [|c t] eqn:E; [discriminate|].
  pose proof (strip_head _ _ _ E) as Hc.
  assert (Hb : is_linebreak c = false).
  { destruct (is_linebreak c) eqn:Hb; [|reflexivity].
    apply is_linebreak_space in Hb. congruence. }
  simpl. rewrite Hb.
  assert (Hne : forall l, strip (c :: l) <> []).
  { intros l. unfold strip. simpl. rewrite Hc, rstrip_cons, Hc.
    destruct (rstrip l); discriminate. }
  destruct (splitlines t); intros E'; injection E' as <- _; apply Hne.
Qed.

Lemma items_shape md (item : NewsItem) :
  In item (items md) ->
  exists section line0 lines1 line,
    In section (sections md) /\
    splitlines (strip section) = line0 :: lines1 /\
    In line lines1 /\
    fst item = strip line0 /\
    strip line = py "- " ++ snd item.
Proof.
  rewrite items_spec, in_flat_map. intros [section [Hsec Hin]].
  unfold section_items in Hin.
  destruct (splitlines (strip section)) as [|line0 lines1] eqn:E;
    [destruct Hin|].
  rewrite in_flat_map in Hin. destruct Hin as [line [Hline Hin]].
  apply line_item_content in Hin. destruct Hin as [Hd Hc].
  exists section, line0, lines1, line. repeat split; assumption.
Qed.

End Trimming.

(* ================================================================== *)
(** ** Lines and sections read off the text *)

Section TextLayout.
Local Open Scope N_scope.

Lemma after_break_other c s : c <> 13 -> after_break c s = s.
Proof.
  intros Hc. destruct s as [|c' s']; [reflexivity|]. simpl.
  destruct (N.eqb_spec c 13); [contradiction | reflexivity].
Qed.

(** Reading a text line by line gives the lines of [str.splitlines]. *)
Lemma lines_from_splitlines s :
  (forall cur,
     lines_from cur false s
     = match splitlines s with
       | [] => match cur with [] => [] | _ :: _ => [rev cur] end
       | l :: ls => (rev cur ++ l) :: ls
       end) /\
  lines_from [] true s = splitlines (after_break 13 s).
Proof.
  induction s as [|c s1 [IHa IHb]].
  - split; [intros cur|]; reflexivity.
  - assert (Ha : forall cur,
               lines_from cur false (c :: s1)
               = match splitlines (c :: s1) with
                 | [] => match cur with [] => [] | _ :: _ => [rev cur] end
                 | l :: ls => (rev cur ++ l) :: ls
                 end).
    { intros cur. cbn [lines_from splitlines andb].
      destruct (is_linebreak c) eqn:Hb.
      - rewrite app_nil_r. f_equal.
        destruct (N.eqb_spec c 13) as [->|Hc]; [exact IHb|].
        rewrite (IHa []), (after_break_other _ _ Hc).
        destruct (splitlines s1); reflexivity.
      - rewrite IHa.
        destruct (splitlines s1) as [|l ls]; cbn [rev];
          rewrite <- ?app_assoc; reflexivity. }
    split; [exact Ha|].
    destruct (N.eqb_spec c 10) as [->|Hc].
    + cbn [lines_from andb after_break]. cbn. rewrite (IHa []).
      destruct (splitlines s1); reflexivity.
    + assert (E : lines_from [] true (c :: s1) = lines_from [] false (c :: s1)).
      { cbn [lines_from andb].
        destruct (N.eqb_spec c 10); [contradiction | reflexivity]. }
      rewrite E, (Ha []).
      assert (E' : after_break 13 (c :: s1) = c :: s1).
      { cbn [after_break]. destruct (N.eqb_spec c 10); [contradiction|].
        reflexivity. }
      rewrite E'. destruct (splitlines (c :: s1)); reflexivity.
Qed.

Lemma text_lines_splitlines s : text_lines s = splitlines s.
Proof.
  unfold text_lines. rewrite (proj1 (lines_from_splitlines s)).
  destruct (splitlines s); reflexivity.
Qed.

(** Reading a document section by section gives the pieces of [re.split]
    behind the first. *)
Lemma sections_from_split n : forall (s : str) bol cur,
  (length s <= n)%nat ->
  sections_from bol 0 cur s
  = match cur, split_h2 bol s with
    | Some r, p :: ps => (rev r ++ p) :: ps
    | Some r, [] => [rev r]
    | None, pieces => tl pieces
    end.
Proof.
  induction n as [|n IH]; intros s bol cur Hn.
  - destruct s; [|simpl in Hn; lia]. destruct cur; cbn; rewrite ?app_nil_r;
      reflexivity.
  - destruct s as [|c s1];
      [destruct cur; cbn; rewrite ?app_nil_r; reflexivity|].
    simpl in Hn. cbn [sections_from].
    destruct (bol && startswith (py "## ") (c :: s1)) eqn:Hm.
    + apply andb_true_iff in Hm. destruct Hm as [-> Hm].
      apply startswith_iff in Hm. destruct Hm as [s3 Hs3].
      injection Hs3 as -> ->.
      change (split_h2 true (35 :: 35 :: 32 :: s3))
        with ([] :: split_h2 false s3).
      change (sections_from false 2 (Some []) (35 :: 32 :: s3))
        with (sections_from false 0 (Some []) s3).
      rewrite IH by (simpl in Hn; lia).
      pose proof (split_h2_nonempty false s3) as Hne.
      destruct (split_h2 false s3) as [|p ps]; [congruence|].
      destruct cur; cbn; rewrite ?app_nil_r; reflexivity.
    + rewrite (split_h2_cons_other _ _ _ Hm), IH by lia.
      pose proof (split_h2_nonempty (c =? 10) s1) as Hne.
      destruct (split_h2 (c =? 10) s1) as [|p ps]; [congruence|].
      destruct cur as [r|]; cbn [option_map tl rev]; [|reflexivity].
      rewrite <- app_assoc. reflexivity.
Qed.

Lemma section_texts_sections md : section_texts md = sections md.
Proof.
  unfold section_texts, sections, re_split_h2.
  rewrite (sections_from_split (length md)) by reflexivity. reflexivity.
Qed.

(** What a line adds depends on its trimming only. *)
Lemma line_item_strip date l1 l2 :
  strip l1 = strip l2 -> line_item date l1 = line_item date l2.
Proof.
  intros E. rewrite !line_item_unfold, !is_bullet_strip, E. reflexivity.
Qed.

Lemma flat_map_line_item_strip date L1 : forall L2,
  map strip L1 = map strip L2 ->
  flat_map (line_item date) L1 = flat_map (line_item date) L2.
Proof.
  induction L1 as [|l1 L1 IH]; intros [|l2 L2] E; try discriminate;
    [reflexivity|].
  simpl in E. injection E as El EL. simpl.
  rewrite (line_item_strip _ _ _ El), (IH _ EL). reflexivity.
Qed.

Lemma lines_items_cons l ls :
  lines_items (l :: ls)
  = match strip l with
    | [] => lines_items ls
    | _ :: _ => flat_map (line_item (strip l)) ls
    end.
Proof. cbn [lines_items]. rewrite trimmed_strip. reflexivity. Qed.

Lemma lines_items_strip L1 : forall L2,
  map strip L1 = map strip L2 -> lines_items L1 = lines_items L2.
Proof.
  induction L1 as [|l1 L1 IH]; intros [|l2 L2] E; try discriminate;
    [reflexivity|].
  simpl in E. injection E as El EL. rewrite !lines_items_cons, El.
  destruct (strip l2); [exact (IH _ EL)|].
  apply flat_map_line_item_strip. exact EL.
Qed.

Lemma line_item_blank date l : strip l = [] -> line_item date l = [].
Proof.
  intros E. rewrite line_item_unfold. now rewrite (is_bullet_blank _ E).
Qed.

Lemma flat_map_line_item_blanks date blanks :
  Forall (fun l => strip l = []) blanks ->
  flat_map (line_item date) blanks = [].
Proof.
  induction 1 as [|l ls Hl _ IH]; [reflexivity|].
  simpl. rewrite (line_item_blank _ _ Hl). exact IH.
Qed.

Lemma lines_items_blanks blanks :
  Forall (fun l => strip l = []) blanks -> lines_items blanks = [].
Proof.
  induction 1 as [|l ls Hl _ IH]; [reflexivity|].
  rewrite lines_items_cons, Hl. exact IH.
Qed.

(** Blank lines in front are passed over. *)
Lemma lines_items_skip k : forall L M,
  map strip L = repeat [] k ++ M ->
  exists L', map strip L' = M /\ lines_items L = lines_items L'.
Proof.
  induction k as [|k IH]; intros L M E.
  - exists L. split; [exact E | reflexivity].
  - destruct L as [|l L]; [discriminate|]. simpl in E. injection E as El EL.
    destruct (IH _ _ EL) as [L' [HL' Hit]].
    exists L'. split; [exact HL'|]. rewrite lines_items_cons, El. exact Hit.
Qed.

Lemma strip_of_rstrip l1 l2 : rstrip l1 = rstrip l2 -> strip l1 = strip l2.
Proof. intros E. rewrite <- !lstrip_rstrip, E. reflexivity. Qed.

Lemma map_strip_rel L1 L2 :
  Forall2 (fun l1 l2 => rstrip l1 = rstrip l2) L1 L2 ->
  map strip L1 = map strip L2.
Proof.
  induction 1 as [|l1 l2 L1 L2 Hl _ IH]; [reflexivity|].
  simpl. rewrite (strip_of_rstrip _ _ Hl), IH. reflexivity.
Qed.

(** The items the script takes from a section, which it trims before it cuts
    it into lines, are those read off the lines of the section as it stands:
    the date is the first line that is not blank. *)
Lemma section_items_lines section :
  section_items section = lines_items (splitlines section).
Proof.
  unfold section_items.
  pose proof (first_line_not_blank section) as Hfirst.
  unfold strip in *. set (t := lstrip section) in *.
  destruct (splitlines_lstrip (length section) section) as [k Hk];
    [reflexivity|].
  fold t in Hk.
  destruct (lines_items_skip _ _ _ Hk) as [L' [HL' ->]].
  rewrite (lines_items_strip _ _ HL').
  destruct (rstrip_split t) as [w [Ht Hw]].
  destruct (splitlines_app_space (length (rstrip t)) (rstrip t) w)
    as [blanks [Hbl Hrel]]; [reflexivity | assumption |].
  rewrite <- Ht in Hrel.
  rewrite (lines_items_strip _ _ (map_strip_rel _ _ Hrel)).
  assert (Hblank : Forall (fun l => strip l = []) blanks)
    by (eapply Forall_impl; [|exact Hbl]; intros l; apply rstrip_blank_strip).
  destruct (splitlines (rstrip t)) as [|line0 lines1].
  - symmetry. apply lines_items_blanks. exact Hblank.
  - specialize (Hfirst line0 lines1 eq_refl).
    cbn [app]. rewrite lines_items_cons.
    change (rstrip (lstrip line0)) with (strip line0) in *.
    destruct (strip line0) as [|c r] eqn:E; [congruence|].
    rewrite flat_map_app, (flat_map_line_item_blanks _ _ Hblank), app_nil_r.
    reflexivity.
Qed.

(** Lines without a bullet give no item. *)
Lemma flat_map_line_item_none date lines :
  count_bullets lines = 0%nat -> flat_map (line_item date) lines = [].
Proof.
  intros E. rewrite <- (length_line_items date) in E.
  destruct (flat_map (line_item date) lines); [reflexivity | discriminate].
Qed.

Lemma count_bullets_cons l lines :
  count_bullets (l :: lines) = 0%nat -> count_bullets lines = 0%nat.
Proof.
  unfold count_bullets. simpl. destruct (is_bullet l); [discriminate|].
  exact (fun E => E).
Qed.

Lemma lines_items_none lines :
  count_bullets lines = 0%nat -> lines_items lines = [].
Proof.
  induction lines as [|l lines IH]; [reflexivity|]. intros E.
  pose proof (count_bullets_cons _ _ E) as E'.
  rewrite lines_items_cons. destruct (strip l); [exact (IH E')|].
  apply flat_map_line_item_none. exact E'.
Qed.

Lemma lines_items_no_bullet_behind lines :
  count_bullets (tl lines) = 0%nat -> lines_items lines = [].
Proof.
  destruct lines as [|l lines]; [reflexivity|]. cbn [tl]. intros E.
  rewrite lines_items_cons. destruct (strip l); [exact (lines_items_none _ E)|].
  apply flat_map_line_item_none. exact E.
Qed.

(** The items of a document, read off its text. *)
Lemma items_text md :
  items md
  = flat_map (fun section => lines_items (text_lines section))
      (section_texts md).
Proof.
  rewrite items_spec, section_texts_sections.
  apply flat_map_ext. intros section.
  rewrite text_lines_splitlines. apply section_items_lines.
Qed.

End TextLayout.

(* ================================================================== *)
(** ** The date parser *)

Section DateParser.
Context `{UnicodeData}.
Local Open Scope N_scope.

(** Whatever [strptime] raises is a [ValueError] about its text. *)
Lemma strptime_raise data format e :
  strptime data format = Raise e -> e = ValueError (time_data data).
Proof.
  unfold strptime.
  destruct (pattern false format); [|intros E; injection E as <-; reflexivity].
  destruct (re_match r data) as [[found [|c rest]]|];
    try (intros E; injection E as <-; reflexivity).
  destruct (field "Y" 1900 found), (field "m" 1 found), (field "d" 1 found),
           (field "H" 0 found), (field "M" 0 found);
    try (intros E; injection E as <-; reflexivity).
  destruct (check_date_fields z z0 z1 && check_time_fields z2 z3 0);
    [discriminate | intros E; injection E as <-; reflexivity].
Qed.

(** The statement [try ... except ValueError ...] as a case distinction:
    the second format is tried exactly when the first attempt fails. *)
Lemma pubdate_cases date :
  pubdate date =
  match strptime date (py "%Y-%m-%d %H:%M") with
  | Ok d => Ok (replace_tzinfo central d)
  | Raise _ =>
      match strptime date (py "%Y-%m-%d") with
      | Ok d => Ok (replace_tzinfo central d)
      | Raise _ => Raise (ValueError (time_data date))
      end
  end.
Proof.
  unfold pubdate.
  destruct (strptime date (py "%Y-%m-%d %H:%M")) as [d|e] eqn:E1;
    [reflexivity|].
  apply strptime_raise in E1. subst e. simpl.
  destruct (strptime date (py "%Y-%m-%d")) as [d|e] eqn:E2; [reflexivity|].
  apply strptime_raise in E2. subst e. reflexivity.
Qed.

Lemma pubdate_raise date e :
  pubdate date = Raise e -> e = ValueError (time_data date).
Proof.
  rewrite pubdate_cases.
  destruct (strptime date (py "%Y-%m-%d %H:%M")); [discriminate|].
  destruct (strptime date (py "%Y-%m-%d")); [discriminate|].
  intros E; injection E as <-; reflexivity.
Qed.

Lemma pubdate_tz date dt : pubdate date = Ok dt -> tzinfo dt = Some central.
Proof.
  rewrite pubdate_cases.
  destruct (strptime date (py "%Y-%m-%d %H:%M"));
    [intros E; injection E as <-; reflexivity|].
  destruct (strptime date (py "%Y-%m-%d"));
    [intros E; injection E as <-; reflexivity | discriminate].
Qed.

(** Both formats begin with [%Y]: an accepted text begins with a digit. *)
Lemma strptime_minute_head date d :
  strptime date (py "%Y-%m-%d %H:%M") = Ok d ->
  exists c rest, date = c :: rest /\ is_digit c = true.
Proof.
  unfold strptime.
  destruct (pattern false (py "%Y-%m-%d %H:%M")) as [r|] eqn:Er;
    [|discriminate].
  vm_compute in Er. injection Er as <-.
  unfold re_match. destruct date as [|c rest]; [discriminate|].
  simpl rmatch. destruct (is_digit c) eqn:Hc; [|discriminate].
  intros _. exists c, rest. split; [reflexivity | exact Hc].
Qed.

Lemma strptime_date_head date d :
  strptime date (py "%Y-%m-%d") = Ok d ->
  exists c rest, date = c :: rest /\ is_digit c = true.
Proof.
  unfold strptime.
  destruct (pattern false (py "%Y-%m-%d")) as [r|] eqn:Er; [|discriminate].
  vm_compute in Er. injection Er as <-.
  unfold re_match. destruct date as [|c rest]; [discriminate|].
  simpl rmatch. destruct (is_digit c) eqn:Hc; [|discriminate].
  intros _. exists c, rest. split; [reflexivity | exact Hc].
Qed.

Lemma pubdate_head date dt :
  pubdate date = Ok dt -> exists c rest, date = c :: rest /\ is_digit c = true.
Proof.
  rewrite pubdate_cases.
  destruct (strptime date (py "%Y-%m-%d %H:%M")) eqn:E1.
  - intros _. eapply strptime_minute_head; eassumption.
  - destruct (strptime date (py "%Y-%m-%d")) eqn:E2; [|discriminate].
    intros _. eapply strptime_date_head; eassumption.
Qed.

End DateParser.

(* ================================================================== *)
(** ** The feed builder *)

Section Builder.
Context `{UnicodeData} `{Markdown2}.

Lemma update_last {X} (f : X -> X) l x :
  update (length l) f (l ++ [x]) = l ++ [f x].
Proof. induction l as [|a l IH]; simpl; [reflexivity | now rewrite IH]. Qed.

Lemma parses_parsed date :
  parses date = true <-> exists dt, pubdate date = Ok dt.
Proof.
  unfold parses. destruct (pubdate date) as [dt|e].
  - split; [intros _; now exists dt | reflexivity].
  - split; [discriminate | intros [dt Hdt]; discriminate].
Qed.

(** One turn of the second loop: a new object in front of the feed's list,
    with title and description set, and the date when it parses. *)
Lemma feed_entry_run item h :
  feed_entry item h =
  (match pubdate (fst item) with Ok _ => Ok tt | Raise e => Raise e end,
   mkHeap (set_feed_entries (length (objects h) :: feed_entries (fg h)) (fg h))
          (objects h ++ [entry_of item (parsed (fst item))])).
Proof.
  destruct item as [date content]. destruct h as [g objs].
  unfold feed_entry, bind, add_entry, FeedEntry_title, FeedEntry_description,
    FeedEntry_pubDate, set_fe, lift, entry_of, parsed.
  simpl. rewrite !update_last. simpl.
  destruct (pubdate date) as [dt|e] eqn:E; [|reflexivity].
  rewrite (pubdate_tz _ _ E). simpl. rewrite update_last. reflexivity.
Qed.

Lemma first_bad_date_cons item its :
  first_bad_date (item :: its) =
  if parses (fst item) then first_bad_date its else Some (fst item).
Proof.
  unfold first_bad_date. simpl. destruct (parses (fst item)); reflexivity.
Qed.

Lemma set_feed_entries_twice a b g :
  set_feed_entries a (set_feed_entries b g) = set_feed_entries a g.
Proof. reflexivity. Qed.

(** The loop on items that all parse: one object per item, in item order in
    the store and in reverse order in the feed's list. *)
Lemma for_each_ok its : forall h,
  first_bad_date its = None ->
  for_each its feed_entry h =
  (Ok tt,
   mkHeap (set_feed_entries
             (rev (seq (length (objects h)) (length its))
                ++ feed_entries (fg h)) (fg h))
          (objects h ++ map (fun it => entry_of it (parsed (fst it))) its)).
Proof.
  induction its as [|item its IH]; intros h Hok.
  - simpl. unfold ret. rewrite app_nil_r. destruct h as [[] ?]. reflexivity.
  - rewrite first_bad_date_cons in Hok.
    destruct (parses (fst item)) eqn:Hp; [|discriminate].
    apply parses_parsed in Hp. destruct Hp as [dt Hdt].
    cbn [for_each]. unfold bind at 1. rewrite feed_entry_run, Hdt.
    rewrite (IH _ Hok). simpl objects. simpl fg.
    rewrite set_feed_entries_twice. f_equal. f_equal.
    + f_equal. simpl feed_entries. rewrite length_app. simpl length.
      rewrite Nat.add_1_r. simpl seq. simpl rev.
      rewrite <- app_assoc. reflexivity.
    + rewrite <- app_assoc. reflexivity.
Qed.

(** The loop stops in the turn of the first item whose date is rejected:
    that item's object is the last one made. *)
Lemma for_each_stops its1 : forall date content its2 h,
  first_bad_date its1 = None ->
  parses date = false ->
  for_each (its1 ++ (date, content) :: its2) feed_entry h =
  (Raise (ValueError (time_data date)),
   mkHeap (set_feed_entries
             (rev (seq (length (objects h)) (S (length its1)))
                ++ feed_entries (fg h)) (fg h))
          (objects h ++ map (fun it => entry_of it (parsed (fst it))) its1
             ++ [entry_of (date, content) None])).
Proof.
  induction its1 as [|item its1 IH]; intros date content its2 h Hok Hbad.
  - cbn [app for_each]. unfold bind at 1. rewrite feed_entry_run.
    unfold parsed. simpl fst. unfold parses in Hbad.
    destruct (pubdate date) as [dt|e] eqn:E; [discriminate|].
    apply pubdate_raise in E. subst e. simpl.
    reflexivity.
  - rewrite first_bad_date_cons in Hok.
    destruct (parses (fst item)) eqn:Hp; [|discriminate].
    apply parses_parsed in Hp. destruct Hp as [dt Hdt].
    cbn [app for_each]. unfold bind at 1. rewrite feed_entry_run, Hdt.
    rewrite (IH _ _ _ _ Hok Hbad). simpl objects. simpl fg.
    rewrite set_feed_entries_twice. f_equal. f_equal.
    + f_equal. simpl feed_entries. rewrite length_app. simpl length.
      rewrite Nat.add_1_r.
      change (seq (length (objects h)) (S (S (length its1))))
        with (length (objects h) :: seq (S (length (objects h))) (S (length its1))).
      simpl rev. rewrite <- !app_assoc. reflexivity.
    + rewrite <- app_assoc. reflexivity.
Qed.

Lemma first_bad_split its date :
  first_bad_date its = Some date ->
  exists its1 content its2,
    its = its1 ++ (date, content) :: its2 /\
    first_bad_date its1 = None /\ parses date = false.
Proof.
  induction its as [|[d c] its IH]; [discriminate|].
  rewrite first_bad_date_cons. simpl fst.
  destruct (parses d) eqn:Hp.
  - intros Hrest. destruct (IH Hrest) as [its1 [content [its2 [-> [H1 H2]]]]].
    exists ((d, c) :: its1), content, its2. split; [reflexivity|].
    split; [|assumption]. rewrite first_bad_date_cons. simpl fst.
    rewrite Hp. assumption.
  - intros E. injection E as <-.
    exists [], c, its. split; [reflexivity|]. split; [reflexivity | assumption].
Qed.

End Builder.

Section Document.
Context `{UnicodeData} `{Markdown2}.

Lemma items_nonempty md :
  Forall (fun item : NewsItem => snd item <> []) (items md).
Proof.
  apply Forall_forall. intros item Hin.
  destruct (items_content _ _ Hin) as [line Hline].
  destruct (content_after_marker _ _ Hline) as [front [c [-> _]]].
  destruct front; discriminate.
Qed.

Lemma set_text_if_truthy (s : str) :
  set_text_if (truthy (Some s))
  = match utf8_error s with
    | None => Ok (truthy (Some s))
    | Some why => Raise (ValueError why)
    end.
Proof.
  destruct s as [|c s]; [reflexivity|].
  unfold truthy, set_text_if, set_text.
  destruct (utf8_error (c :: s)); reflexivity.
Qed.

(** An entry with a title that is not empty has an [item], unless lxml
    refuses the title or, the title passed, the description. *)
Lemma rss_entry_item (item : NewsItem) :
  snd item <> [] ->
  rss_entry (entry_of item (parsed (fst item)))
  = match item_error item with
    | None => Ok (item_elem item)
    | Some why => Raise (ValueError why)
    end.
Proof.
  destruct item as [date [|c content]]; [simpl; congruence|]. intros _.
  unfold rss_entry, entry_of, item_elem, item_error, slice_to.
  cbn [entry_title entry_description entry_pubDate snd fst].
  change (firstn 60 (c :: content)) with (c :: firstn 59 content).
  set (title := c :: firstn 59 content).
  set (description := markdown (c :: content)).
  change (truthy (Some title)) with (Some title).
  replace (match truthy (Some description) with
           | Some _ | _ =>
               match set_text_if (Some title) with
               | Ok title0 =>
                   match set_text_if (truthy (Some description)) with
                   | Ok description0 =>
                       Ok (mkItem title0 description0 (parsed date))
                   | Raise x => Raise x
                   end
               | Raise x => Raise x
               end
           end)
    with (match set_text_if (Some title) with
          | Ok title0 =>
              match set_text_if (truthy (Some description)) with
              | Ok description0 =>
                  Ok (mkItem title0 description0 (parsed date))
              | Raise x => Raise x
              end
          | Raise x => Raise x
          end)
    by (destruct (truthy (Some description)); reflexivity).
  rewrite set_text_if_truthy.
  unfold set_text_if, set_text.
  destruct (utf8_error title); [reflexivity|].
  destruct (utf8_error description); reflexivity.
Qed.

Lemma rss_entries_more objs extra refs :
  Forall (fun r => r < length objs) refs ->
  rss_entries (objs ++ extra) refs = rss_entries objs refs.
Proof.
  induction 1 as [|r refs Hr _ IH]; [reflexivity|].
  simpl. rewrite IH, app_nth1 by assumption. reflexivity.
Qed.

(** [_create_rss] walks the feed's list: the items of the document are those
    of the entries, last made first, and the first complaint of lxml on that
    way stops it. *)
Lemma rss_entries_items its :
  Forall (fun item : NewsItem => snd item <> []) its ->
  rss_entries (map (fun it => entry_of it (parsed (fst it))) its)
    (rev (seq 0 (length its)))
  = match first_refused (rev its) with
    | None => Ok (rev (map item_elem its))
    | Some why => Raise (ValueError why)
    end.
Proof.
  induction its as [|item its IH] using rev_ind; intros Hne; [reflexivity|].
  apply Forall_app in Hne. destruct Hne as [Hne Hitem].
  inversion Hitem as [|? ? Hi _]; subst.
  rewrite length_app, Nat.add_1_r, seq_S, !rev_app_distr, !map_app.
  cbn [rev app map first_refused]. cbn [rss_entries].
  replace (length its)
    with (length (map (fun it => entry_of it (parsed (fst it))) its)) at 1
    by apply length_map.
  rewrite Nat.add_0_l, nth_middle, (rss_entry_item _ Hi).
  destruct (item_error item); [reflexivity|].
  rewrite rss_entries_more.
  - rewrite (IH Hne), rev_app_distr.
    destruct (first_refused (rev its)); reflexivity.
  - apply Forall_forall. intros r Hr. apply in_rev, in_seq in Hr.
    rewrite length_map. lia.
Qed.

(** The channel of the script's feed: lxml takes the texts of the script. *)
Lemma rss_channel_script now refs :
  rss_channel
    (set_feed_entries refs
       (set_rss_description
          (py "Latest news and updates for SQL Saturday Baton Rouge 2025")
          (set_rss_link (py "https://github.com/KennyNeal/SQL-Saturday-2025")
             (set_rss_title (py "SQL Saturday News")
                (FeedGenerator_init now)))))
  = Ok (feed_document now).
Proof. vm_compute. reflexivity. Qed.

(** A run, as a function of the items of the input: the first rejected
    date stops it in the loop; otherwise the first text lxml refuses, going
    through the entries last to first, stops it in [fg.rss_file]; either way
    nothing is written.  Otherwise the document lists the items last to
    first. *)
Lemma main_spec now md old :
  main now (mkFiles (Some md) old) =
  match first_bad_date (items md) with
  | Some date => (Raise (ValueError (time_data date)), mkFiles (Some md) old)
  | None =>
      match first_refused (rev (items md)) with
      | Some why => (Raise (ValueError why), mkFiles (Some md) old)
      | None =>
          (Ok tt,
           mkFiles (Some md)
             (Some (feed_document now (rev (map item_elem (items md))))))
      end
  end.
Proof.
  unfold main, build. cbn [newsfeed_md].
  unfold bind, FeedGenerator_title, FeedGenerator_link,
    FeedGenerator_description, set_fg. cbn [fg objects].
  destruct (first_bad_date (items md)) as [date|] eqn:Hbad.
  - destruct (first_bad_split _ _ Hbad) as [its1 [c [its2 [-> [H1 H2]]]]].
    rewrite (for_each_stops _ _ _ _ _ H1 H2). reflexivity.
  - rewrite (for_each_ok _ _ Hbad). unfold create_rss.
    cbn [fg objects length app]. rewrite rss_channel_script.
    cbn [feed_entries set_feed_entries set_rss_description set_rss_link
         set_rss_title FeedGenerator_init].
    rewrite app_nil_r, (rss_entries_items _ (items_nonempty md)).
    destruct (first_refused (rev (items md))); reflexivity.
Qed.

End Document.

(* ================================================================== *)
(** ** Order, count and failure of a run *)

Section Run.
Context `{UnicodeData} `{Markdown2}.

Lemma first_bad_none its :
  first_bad_date its = None <->
  Forall (fun item : NewsItem => parses (fst item) = true) its.
Proof.
  induction its as [|item its IH].
  - split; [constructor | reflexivity].
  - rewrite first_bad_date_cons. destruct (parses (fst item)) eqn:Hp.
    + rewrite IH. split; [now constructor | now inversion 1].
    + split; [discriminate | inversion 1; congruence].
Qed.

Lemma first_refused_cons item its :
  first_refused (item :: its)
  = match item_error item with
    | Some why => Some why
    | None => first_refused its
    end.
Proof. reflexivity. Qed.

Lemma first_refused_none its :
  first_refused its = None <->
  Forall (fun item : NewsItem => item_error item = None) its.
Proof.
  induction its as [|item its IH].
  - split; [constructor | reflexivity].
  - rewrite first_refused_cons. destruct (item_error item) eqn:He.
    + split; [discriminate | inversion 1; congruence].
    + rewrite IH. split; [now constructor | now inversion 1].
Qed.

Lemma first_refused_in its why :
  first_refused its = Some why ->
  exists item : NewsItem, In item its /\ item_error item = Some why.
Proof.
  induction its as [|item its IH]; [discriminate|].
  rewrite first_refused_cons. destruct (item_error item) eqn:He.
  - intros E. injection E as <-. exists item. split; [left; reflexivity|].
    exact He.
  - intros E. destruct (IH E) as [it [Hin Hit]].
    exists it. split; [right; exact Hin | exact Hit].
Qed.

(** A date that parses is not empty. *)
Lemma parses_not_empty date : parses date = true -> date <> [].
Proof.
  intros Hp. apply parses_parsed in Hp. destruct Hp as [dt Hdt].
  destruct (pubdate_head _ _ Hdt) as [c [rest [-> _]]]. discriminate.
Qed.

(** In a section whose heading text parses, that text is the date, and every
    bullet line behind the heading line is an item. *)
Lemma lines_items_dated section :
  parses (heading_text section) = true ->
  lines_items (text_lines section)
  = flat_map (line_item (heading_text section)) (tl (text_lines section)).
Proof.
  unfold heading_text. intros Hp. apply parses_not_empty in Hp.
  destruct (text_lines section) as [|line0 lines1]; [reflexivity|].
  cbn [hd tl lines_items] in *.
  destruct (trimmed line0); [congruence | reflexivity].
Qed.

Lemma flat_map_line_item_date date lines (item : NewsItem) :
  In item (flat_map (line_item date) lines) -> fst item = date.
Proof.
  rewrite in_flat_map. intros [line [_ Hin]].
  eapply line_item_content; eassumption.
Qed.

(** In a well-formed document every item carries a date that parses. *)
Lemma well_formed_items md :
  well_formed md = true -> first_bad_date (items md) = None.
Proof.
  unfold well_formed. rewrite forallb_forall. intros Hwf.
  apply first_bad_none, Forall_forall. intros item Hin.
  rewrite items_text, in_flat_map in Hin.
  destruct Hin as [section [Hsec Hin]].
  specialize (Hwf _ Hsec).
  rewrite (lines_items_dated _ Hwf) in Hin.
  rewrite (flat_map_line_item_date _ _ _ Hin). exact Hwf.
Qed.

Lemma length_items md :
  well_formed md = true -> length (items md) = bullet_count md.
Proof.
  unfold well_formed, bullet_count. rewrite items_text.
  induction (section_texts md) as [|section secs IH]; [reflexivity|].
  simpl. rewrite andb_true_iff. intros [Hs Hrest].
  rewrite length_app, (lines_items_dated _ Hs), length_line_items, (IH Hrest).
  reflexivity.
Qed.

(** A section with a bullet line or without: when every section that has one
    has a heading text that parses, every item carries a date that parses. *)
Lemma dated_bullets_items md :
  (forall section,
     In section (section_texts md) ->
     count_bullets (tl (text_lines section)) = 0 \/
     parses (heading_text section) = true) ->
  first_bad_date (items md) = None.
Proof.
  intros Hsecs. apply first_bad_none, Forall_forall. intros item Hin.
  rewrite items_text, in_flat_map in Hin.
  destruct Hin as [section [Hsec Hin]].
  destruct (Hsecs _ Hsec) as [Hnone | Hp].
  - rewrite (lines_items_no_bullet_behind _ Hnone) in Hin. destruct Hin.
  - rewrite (lines_items_dated _ Hp) in Hin.
    rewrite (flat_map_line_item_date _ _ _ Hin). exact Hp.
Qed.

(** A run on items whose dates all parse gets to [fg.rss_file]. *)
Lemma run_dates_accepted now md old :
  first_bad_date (items md) = None ->
  main now (mkFiles (Some md) old)
  = match first_refused (rev (items md)) with
    | Some why => (Raise (ValueError why), mkFiles (Some md) old)
    | None =>
        (Ok tt,
         mkFiles (Some md)
           (Some (feed_document now (rev (map item_elem (items md))))))
    end.
Proof. intros Hok. rewrite main_spec, Hok. reflexivity. Qed.

Lemma first_refused_not_date its date :
  first_refused its <> Some (time_data date).
Proof.
  intros E. apply first_refused_in in E. destruct E as [item [_ E]].
  unfold item_error, utf8_error in E.
  repeat match type of E with
         | context [if ?b then _ else _] => destruct b
         end; discriminate.
Qed.

(** What a run that ends well has written. *)
Lemma written_items now md old doc :
  main now (mkFiles (Some md) old) = (Ok tt, mkFiles (Some md) (Some doc)) ->
  channel_items doc = rev (map item_elem (items md)).
Proof.
  rewrite main_spec.
  destruct (first_bad_date (items md)); [discriminate|].
  destruct (first_refused (rev (items md))); [discriminate|].
  intros E. injection E as <-. reflexivity.
Qed.

End Run.

(* ================================================================== *)
(** ** The claims *)

Section Claims.
Context `{UnicodeData} `{Markdown2}.

(** C1, as amended: the [item] elements of the written document are in the
    reverse of parse order.  Every entry is put in front of the entries made
    before it and nothing is sorted, so the last bullet line of the source
    comes first in the feed. *)
Theorem C1_items_in_reverse_parse_order now md old doc :
  main now (mkFiles (Some md) old) = (Ok tt, mkFiles (Some md) (Some doc)) ->
  channel_items doc = rev (map item_elem (items md)).
Proof. apply written_items. Qed.


(** C3: in a well-formed document, one whose section dates all parse, the
    extractor finds as many items as there are bullet lines behind the first
    line of each section, and every document the run writes has that many
    [item] elements.  The run writes one unless lxml refuses the title or the
    description of an item; a date never stops it. *)
Theorem C3_one_item_per_bullet_line now md old :
  well_formed md = true ->
  length (items md) = bullet_count md /\
  (forall doc,
     main now (mkFiles (Some md) old) = (Ok tt, mkFiles (Some md) (Some doc)) ->
     length (channel_items doc) = bullet_count md) /\
  match first_refused (rev (items md)) with
  | None =>
      exists doc,
        main now (mkFiles (Some md) old)
        = (Ok tt, mkFiles (Some md) (Some doc)) /\
        length (channel_items doc) = bullet_count md
  | Some why =>
      main now (mkFiles (Some md) old)
      = (Raise (ValueError why), mkFiles (Some md) old)
  end.
Proof.
  intros Hwf. pose proof (length_items _ Hwf) as Hlen.
  split; [exact Hlen|]. split.
  - intros doc Hrun. rewrite (written_items _ _ _ _ Hrun).
    rewrite length_rev, length_map. exact Hlen.
  - rewrite (run_dates_accepted _ _ _ (well_formed_items _ Hwf)).
    destruct (first_refused (rev (items md))); [reflexivity|].
    eexists. split; [reflexivity|].
    cbn [channel_items feed_document].
    rewrite length_rev, length_map. exact Hlen.
Qed.

(** C5, as amended: when an item carries a date that both attempts reject,
    the run dies of the [ValueError] about the first such date, in the turn of
    the loop that reaches it: the entry of that item is the last object made,
    the exit status is 1 and the files are as they were.  A section without a
    bullet line behind its heading line adds no item, whatever its date; and
    when every section that has a bullet line has a date that parses, no date
    stops the run: it gets to [fg.rss_file]. *)
Theorem C5_first_bad_item_date_aborts now md old :
  (forall its1 date content its2 h,
     items md = its1 ++ (date, content) :: its2 ->
     first_bad_date its1 = None ->
     parses date = false ->
     main now (mkFiles (Some md) old)
     = (Raise (ValueError (time_data date)), mkFiles (Some md) old)
     /\ exit_status (fst (main now (mkFiles (Some md) old))) = 1%Z
     /\ exists h',
          for_each (items md) feed_entry h
          = (Raise (ValueError (time_data date)), h')
          /\ length (objects h') = length (objects h) + S (length its1)) /\
  (forall items section,
     count_bullets (tl (text_lines section)) = 0 ->
     scan_section items section = items) /\
  ((forall section,
      In section (section_texts md) ->
      count_bullets (tl (text_lines section)) = 0 \/
      parses (heading_text section) = true) ->
   (forall date,
      fst (main now (mkFiles (Some md) old))
      <> Raise (ValueError (time_data date))) /\
   main now (mkFiles (Some md) old)
   = match first_refused (rev (items md)) with
     | Some why => (Raise (ValueError why), mkFiles (Some md) old)
     | None =>
         (Ok tt,
          mkFiles (Some md)
            (Some (feed_document now (rev (map item_elem (items md))))))
     end).
Proof.
  split; [|split].
  - intros its1 date content its2 h Hitems Hgood Hbad.
    assert (Hfirst : first_bad_date (items md) = Some date).
    { rewrite Hitems. clear Hitems.
      induction its1 as [|item its1 IH].
      - simpl app. rewrite first_bad_date_cons. simpl fst. now rewrite Hbad.
      - rewrite first_bad_date_cons in Hgood.
        simpl app. rewrite first_bad_date_cons.
        destruct (parses (fst item)); [auto | discriminate]. }
    rewrite main_spec, Hfirst. split; [reflexivity|]. split; [reflexivity|].
    rewrite Hitems, (for_each_stops _ _ _ _ _ Hgood Hbad).
    eexists. split; [reflexivity|].
    cbn [objects]. rewrite !length_app, length_map. simpl.
    rewrite Nat.add_1_r. reflexivity.
  - intros items section Hnone.
    rewrite scan_section_spec, section_items_lines, <- text_lines_splitlines.
    rewrite (lines_items_no_bullet_behind _ Hnone). apply app_nil_r.
  - intros Hsecs.
    pose proof (run_dates_accepted now md old (dated_bullets_items _ Hsecs))
      as Hrun.
    split; [|exact Hrun].
    intros date. rewrite Hrun.
    destruct (first_refused (rev (items md))) as [why|] eqn:E;
      [|discriminate].
    cbn [fst]. intros E'. injection E' as ->.
    exact (first_refused_not_date _ _ E).
Qed.

(** C6: the title an entry gets is the content itself when the content has
    at most 60 characters, and otherwise the 60 characters the content begins
    with, whatever follows them. *)
Theorem C6_title_is_content_cut_at_60 (item : NewsItem) h :
  let fe := length (objects h) in
  let e := nth fe (objects (snd (feed_entry item h)))
               (mkFeedEntry None None None) in
  (length (snd item) <= 60 -> entry_title e = Some (snd item)) /\
  (60 < length (snd item) ->
   exists title rest,
     entry_title e = Some title /\ snd item = title ++ rest /\
     length title = 60).
Proof.
  intros fe e. subst fe e. rewrite feed_entry_run. cbn [snd objects].
  rewrite nth_middle. unfold entry_of, slice_to. cbn [entry_title].
  split.
  - intros Hlen. rewrite firstn_all2 by exact Hlen. reflexivity.
  - intros Hlen. exists (firstn 60 (snd item)), (skipn 60 (snd item)).
    split; [reflexivity|]. split.
    + symmetry. apply firstn_skipn.
    + rewrite length_firstn. lia.
Qed.

(** C7, as amended: a line adds an item exactly when, trimmed, it begins
    with [- ], and the content of the item is the rest of the trimmed line;
    any other line leaves the items as they are, be it blank, prose or a
    nested list under another marker.  In a section the lines that are so
    tested are those behind the first line that is not blank, which gives
    the date: the items of a section are those read off its lines in that
    way.  When the heading line has text, they are what the lines behind the
    heading line add; nothing in the extractor can raise. *)
Theorem C7_item_iff_bullet_behind_the_date :
  (forall date items line content,
     scan_line date items line = items ++ [(date, content)]
     <-> trimmed line = py "- " ++ content) /\
  (forall date items line,
     (forall content, trimmed line <> py "- " ++ content) ->
     scan_line date items line = items) /\
  (forall items section,
     scan_section items section
     = items ++ lines_items (text_lines section)) /\
  (forall items section line0 lines1,
     text_lines section = line0 :: lines1 ->
     trimmed line0 <> [] ->
     scan_section items section
     = items ++ flat_map (line_item (trimmed line0)) lines1) /\
  (forall date items,
     scan_line date items [] = items /\
     scan_line date items (py "Doors open at nine") = items /\
     scan_line date items (py "    * bring a laptop") = items /\
     scan_line date items (py "-no blank behind the dash") = items).
Proof.
  assert (Hsec : forall items section,
             scan_section items section
             = items ++ lines_items (text_lines section)).
  { intros items section.
    rewrite scan_section_spec, section_items_lines, text_lines_splitlines.
    reflexivity. }
  split; [|split; [|split; [|split]]];
    [| |exact Hsec| |intros date items; repeat split].
  - intros date items line content.
    rewrite scan_line_spec, line_item_unfold, trimmed_strip.
    destruct (is_bullet line) eqn:Hb.
    + apply is_bullet_iff in Hb. destruct Hb as [c Hc]. rewrite Hc.
      unfold slice_from. simpl skipn. split.
      * intros E. apply app_inv_head in E. injection E as ->. reflexivity.
      * intros E. apply app_inv_head in E. subst c. reflexivity.
    + split.
      * intros E. apply app_inv_head in E. discriminate.
      * intros E.
        assert (Hb' : is_bullet line = true)
          by (apply is_bullet_iff; now exists content).
        congruence.
  - intros date items line Hno.
    rewrite scan_line_spec, line_item_unfold.
    destruct (is_bullet line) eqn:Hb; [|apply app_nil_r].
    apply is_bullet_iff in Hb. destruct Hb as [c Hc].
    rewrite <- trimmed_strip in Hc. destruct (Hno _ Hc).
  - intros items section line0 lines1 Hlines Hdate.
    rewrite Hsec, Hlines. cbn [lines_items].
    destruct (trimmed line0); [congruence | reflexivity].
Qed.

(** C8: the content of every extracted item is not empty and ends in a
    character that is not whitespace; a line that is a dash and whitespace
    only is no item. *)
Theorem C8_item_content_not_empty :
  (forall md item,
     In item (items md) ->
     snd item <> [] /\
     exists front c, snd item = front ++ [c] /\ is_space c = false) /\
  (forall date items before after,
     Forall (fun c => is_space c = true) before ->
     Forall (fun c => is_space c = true) after ->
     scan_line date items (before ++ ch "-" :: after) = items) /\
  items (py "## 2025-05-01" ++ [10%N] ++ py "- ") = [].
Proof.
  split; [|split].
  - intros md item Hin.
    destruct (items_content _ _ Hin) as [line Hline].
    destruct (content_after_marker _ _ Hline) as [front [c [E Hc]]].
    split; [|now exists front, c].
    rewrite E. destruct front; discriminate.
  - intros date items before after Hb Ha.
    rewrite scan_line_spec, line_item_unfold.
    rewrite (dash_alone_not_bullet _ _ Hb Ha). apply app_nil_r.
  - reflexivity.
Qed.

End Claims.


(* ================================================================== *)
(** ** Texts in the two layouts are accepted *)

Section RoundTrip.
Context `{UnicodeData}.

Lemma digit_char_cases n :
  exists r, (0 <= r < 10)%Z /\ digit_char n = N.of_nat (48 + Z.to_nat r)
            /\ (n mod 10 = r)%Z.
Proof.
  exists (n mod 10)%Z. split; [apply Z.mod_pos_bound; lia|].
  split; [|reflexivity]. unfold digit_char.
  pose proof (Z.mod_pos_bound n 10 eq_refl). lia.
Qed.

Ltac digit_cases n :=
  let r := fresh "r" in
  let Hr := fresh "Hr" in
  let E := fresh "E" in
  let Em := fresh "Em" in
  destruct (digit_char_cases n) as [r [Hr [E Em]]]; rewrite E;
  assert (Hcases : (r = 0 \/ r = 1 \/ r = 2 \/ r = 3 \/ r = 4 \/ r = 5 \/
                    r = 6 \/ r = 7 \/ r = 8 \/ r = 9)%Z) by lia;
  clear Hr;
  destruct Hcases as [-> | [-> | [-> | [-> | [-> | [-> | [-> | [-> | [-> | ->]]]]]]]]].

Lemma decimal_digit_char n :
  decimal (digit_char n) = Some (Z.to_N (n mod 10)).
Proof. digit_cases n; rewrite Em; reflexivity. Qed.

Lemma is_digit_digit_char n : is_digit (digit_char n) = true.
Proof. unfold is_digit. rewrite decimal_digit_char. reflexivity. Qed.

Lemma is_space_digit_char n : is_space (digit_char n) = false.
Proof. digit_cases n; reflexivity. Qed.

Lemma ascii_digit_digit_char n : ascii_digit (digit_char n) = true.
Proof. digit_cases n; reflexivity. Qed.

Lemma digit_char_not c n :
  (c < 48 \/ 57 < c)%N -> digit_char n <> c.
Proof.
  intros Hc. digit_cases n; intros <-; vm_compute in Hc;
    destruct Hc as [Hc | Hc]; discriminate Hc.
Qed.

(** A text without whitespace at either end is its own trimming. *)
Lemma strip_nonspace s :
  Forall (fun c => is_space c = false) s -> strip s = s.
Proof.
  intros Hs. unfold strip.
  assert (Hl : lstrip s = s).
  { destruct Hs as [|c s Hc _]; [reflexivity|]. simpl. now rewrite Hc. }
  rewrite Hl. clear Hl.
  induction Hs as [|c s Hc _ IH]; [reflexivity|].
  rewrite rstrip_cons, IH, Hc. destruct s; reflexivity.
Qed.

Lemma int_pad2 v : (0 <= v <= 99)%Z -> int (pad2 v) = Some v.
Proof.
  intros Hv. unfold int, pad2.
  rewrite strip_nonspace
    by (repeat constructor; apply is_space_digit_char).
  cbn [digits_value]. rewrite !decimal_digit_char. cbn [option_map].
  f_equal. pose proof (Z.mod_pos_bound (v / 10) 10 eq_refl).
  pose proof (Z.mod_pos_bound v 10 eq_refl).
  pose proof (Z.div_mod v 10 ltac:(lia)).
  assert (v / 10 mod 10 = v / 10)%Z
    by (apply Z.mod_small; split;
        [apply Z.div_pos; lia | apply Z.div_lt_upper_bound; lia]).
  lia.
Qed.

Lemma int_pad4 y : (0 <= y <= 9999)%Z -> int (pad4 y) = Some y.
Proof.
  intros Hy. unfold int, pad4.
  rewrite strip_nonspace
    by (repeat constructor; apply is_space_digit_char).
  cbn [digits_value]. rewrite !decimal_digit_char. cbn [option_map].
  f_equal.
  pose proof (Z.mod_pos_bound (y / 1000) 10 eq_refl).
  pose proof (Z.mod_pos_bound (y / 100) 10 eq_refl).
  pose proof (Z.mod_pos_bound (y / 10) 10 eq_refl).
  pose proof (Z.mod_pos_bound y 10 eq_refl).
  pose proof (Z.div_mod y 10 ltac:(lia)).
  pose proof (Z.div_mod (y / 10) 10 ltac:(lia)).
  pose proof (Z.div_mod (y / 100) 10 ltac:(lia)).
  assert (E1 : (y / 10 / 10 = y / 100)%Z) by (rewrite Z.div_div by lia; reflexivity).
  assert (E2 : (y / 100 / 10 = y / 1000)%Z) by (rewrite Z.div_div by lia; reflexivity).
  assert (y / 1000 mod 10 = y / 1000)%Z
    by (apply Z.mod_small; split;
        [apply Z.div_pos; lia | apply Z.div_lt_upper_bound; lia]).
  rewrite E1 in *. rewrite E2 in *. lia.
Qed.

End RoundTrip.

Section RoundTripMatch.
Context `{UnicodeData}.

Lemma consumed (p s : str) :
  firstn (length (p ++ s) - length s) (p ++ s) = p.
Proof.
  rewrite length_app, Nat.add_sub, firstn_app, Nat.sub_diag, firstn_all.
  simpl. apply app_nil_r.
Qed.

Lemma Z_enum (P : Z -> Prop) (lo : Z) (n : nat) :
  (forall i, (i < n)%nat -> P (lo + Z.of_nat i)%Z) ->
  forall v, (lo <= v < lo + Z.of_nat n)%Z -> P v.
Proof.
  intros HP v Hv. replace v with (lo + Z.of_nat (Z.to_nat (v - lo)))%Z by lia.
  apply HP. lia.
Qed.

(** The year group takes the four digits. *)
Lemma rmatch_Y {A} y s gs (k : str -> groups -> option A) :
  rmatch TimeRE_Y (pad4 y ++ s) gs k = k s ((ch "Y", pad4 y) :: gs).
Proof.
  unfold TimeRE_Y, pad4. cbn [rmatch app].
  rewrite !is_digit_digit_char.
  match goal with
  | |- context [firstn _ (?a :: ?b :: ?c :: ?d :: s)] =>
      change (a :: b :: c :: d :: s) with ([a; b; c; d] ++ s)
  end.
  rewrite consumed. reflexivity.
Qed.

Lemma rmatch_Chr {A} c s gs (k : str -> groups -> option A) :
  rmatch (Chr c) (c :: s) gs k = k s gs.
Proof. cbn [rmatch]. rewrite N.eqb_refl. reflexivity. Qed.

Lemma rmatch_Cat {A} r1 r2 s gs (k : str -> groups -> option A) :
  rmatch (Cat r1 r2) s gs k
  = rmatch r1 s gs (fun s1 gs1 => rmatch r2 s1 gs1 k).
Proof. reflexivity. Qed.

Lemma rmatch_Grp {A} g r s gs (k : str -> groups -> option A) :
  rmatch (Grp g r) s gs k
  = rmatch r s gs
      (fun s1 gs1 => k s1 ((g, firstn (length s - length s1) s) :: gs1)).
Proof. reflexivity. Qed.

(** One blank in front of a digit. *)
Lemma rmatch_Spaces {A} n s gs (k : str -> groups -> option A) :
  rmatch Spaces (ch " " :: digit_char n :: s) gs k = k (digit_char n :: s) gs.
Proof.
  cbn [rmatch]. replace (is_space (ch " ")) with true by reflexivity.
  cbn [spaces_star]. rewrite is_space_digit_char. reflexivity.
Qed.

(** A two-digit group on a zero-padded field: the alternative that takes
    both digits is the first to reach the continuation. *)
Ltac two_digits Hk :=
  match goal with
  | |- rmatch (Grp ?g ?r) (pad2 ?v ++ ?s) ?gs ?k = Some ?a =>
      let p := eval vm_compute in (pad2 v) in
      change (pad2 v) with p in *;
      rewrite (rmatch_Grp g r (p ++ s) gs k);
      let k' := fresh "k'" in
      let Ek := fresh "Ek" in
      match goal with
      | |- rmatch _ _ _ ?K = _ => remember K as k' eqn:Ek
      end;
      assert (Hk' : k' s gs = Some a)
        by (subst k'; cbn beta; rewrite consumed; exact Hk);
      cbn; rewrite Hk'; reflexivity
  end.

Lemma rmatch_m {A} m s gs (k : str -> groups -> option A) a :
  (1 <= m <= 12)%Z ->
  k s ((ch "m", pad2 m) :: gs) = Some a ->
  rmatch TimeRE_m (pad2 m ++ s) gs k = Some a.
Proof.
  intros Hm Hk. revert Hk. pattern m. apply (Z_enum _ 1 12); [|lia].
  clear Hm. intros i Hi Hk. unfold TimeRE_m.
  do 12 (destruct i as [|i]; [two_digits Hk|]). lia.
Qed.

Lemma rmatch_d {A} d s gs (k : str -> groups -> option A) a :
  (1 <= d <= 31)%Z ->
  k s ((ch "d", pad2 d) :: gs) = Some a ->
  rmatch TimeRE_d (pad2 d ++ s) gs k = Some a.
Proof.
  intros Hd Hk. revert Hk. pattern d. apply (Z_enum _ 1 31); [|lia].
  clear Hd. intros i Hi Hk. unfold TimeRE_d.
  do 31 (destruct i as [|i]; [two_digits Hk|]). lia.
Qed.

Lemma rmatch_H {A} h s gs (k : str -> groups -> option A) a :
  (0 <= h <= 23)%Z ->
  k s ((ch "H", pad2 h) :: gs) = Some a ->
  rmatch TimeRE_H (pad2 h ++ s) gs k = Some a.
Proof.
  intros Hh Hk. revert Hk. pattern h. apply (Z_enum _ 0 24); [|lia].
  clear Hh. intros i Hi Hk. unfold TimeRE_H.
  do 24 (destruct i as [|i]; [two_digits Hk|]). lia.
Qed.

Lemma rmatch_M {A} mi s gs (k : str -> groups -> option A) a :
  (0 <= mi <= 59)%Z ->
  k s ((ch "M", pad2 mi) :: gs) = Some a ->
  rmatch TimeRE_M (pad2 mi ++ s) gs k = Some a.
Proof.
  intros Hmi Hk. revert Hk. pattern mi. apply (Z_enum _ 0 60); [|lia].
  clear Hmi. intros i Hi Hk. unfold TimeRE_M.
  do 60 (destruct i as [|i]; [two_digits Hk|]). lia.
Qed.

End RoundTripMatch.

Section RoundTripParse.
Context `{UnicodeData}.
Local Open Scope Z_scope.

Lemma spaces_star_sound {A} s (k : str -> option A) a :
  spaces_star s k = Some a -> exists p s1, s = p ++ s1 /\ k s1 = Some a.
Proof.
  induction s as [|c s IH]; simpl.
  - intros Hk. exists [], []. split; [reflexivity | exact Hk].
  - destruct (is_space c).
    + destruct (spaces_star s k) as [a'|] eqn:E.
      * intros Ea. injection Ea as ->.
        destruct (IH eq_refl) as [p [s1 [-> Hk]]].
        exists (c :: p), s1. split; [reflexivity | exact Hk].
      * intros Hk. exists [], (c :: s). split; [reflexivity | exact Hk].
    + intros Hk. exists [], (c :: s). split; [reflexivity | exact Hk].
Qed.

(** A successful match has run its continuation on a suffix of the text,
    with groups added under names of the pattern only. *)
Lemma rmatch_sound {A} r : forall s gs (k : str -> groups -> option A) a,
  rmatch r s gs k = Some a ->
  exists p s1 new,
    s = p ++ s1 /\ k s1 (new ++ gs) = Some a /\
    Forall (fun e => In (fst e) (group_names r)) new.
Proof.
  induction r as [|c|lo hi| | |r1 IH1 r2 IH2|r1 IH1 r2 IH2|g r IH];
    intros s gs k a; cbn [rmatch group_names].
  - intros Hk. exists [], s, []. repeat split; [exact Hk | constructor].
  - destruct s as [|c' s]; [discriminate|].
    destruct (c' =? c)%N; [|discriminate].
    intros Hk. exists [c'], s, []. repeat split; [exact Hk | constructor].
  - destruct s as [|c' s]; [discriminate|].
    destruct (in_range lo hi c'); [|discriminate].
    intros Hk. exists [c'], s, []. repeat split; [exact Hk | constructor].
  - destruct s as [|c' s]; [discriminate|].
    destruct (is_digit c'); [|discriminate].
    intros Hk. exists [c'], s, []. repeat split; [exact Hk | constructor].
  - destruct s as [|c' s]; [discriminate|].
    destruct (is_space c'); [|discriminate].
    intros Hk. apply spaces_star_sound in Hk.
    destruct Hk as [p [s1 [-> Hk]]].
    exists (c' :: p), s1, []. repeat split; [exact Hk | constructor].
  - intros Hm. apply IH1 in Hm. destruct Hm as [p1 [s1 [n1 [-> [Hm H1]]]]].
    apply IH2 in Hm. destruct Hm as [p2 [s2 [n2 [-> [Hk H2]]]]].
    exists (p1 ++ p2), s2, (n2 ++ n1).
    split; [apply app_assoc|]. split; [rewrite <- app_assoc; exact Hk|].
    apply Forall_app. split.
    + eapply Forall_impl; [|exact H2]. intros e He. apply in_or_app. now right.
    + eapply Forall_impl; [|exact H1]. intros e He. apply in_or_app. now left.
  - destruct (rmatch r1 s gs k) as [a'|] eqn:E.
    + intros Ea. injection Ea as ->.
      destruct (IH1 _ _ _ _ E) as [p [s1 [new [Hs [Hk Hn]]]]].
      exists p, s1, new. split; [exact Hs|]. split; [exact Hk|].
      eapply Forall_impl; [|exact Hn]. intros e He. apply in_or_app. now left.
    + intros Hm.
      destruct (IH2 _ _ _ _ Hm) as [p [s1 [new [Hs [Hk Hn]]]]].
      exists p, s1, new. split; [exact Hs|]. split; [exact Hk|].
      eapply Forall_impl; [|exact Hn]. intros e He. apply in_or_app. now right.
  - intros Hm. apply IH in Hm. destruct Hm as [p [s1 [new [-> [Hk Hn]]]]].
    eexists p, s1, (_ :: new). split; [reflexivity|]. split; [exact Hk|].
    constructor; [left; reflexivity|].
    eapply Forall_impl; [|exact Hn]. intros e He. right. exact He.
Qed.

Lemma group_absent g (gs : groups) :
  Forall (fun e => fst e <> g) gs -> group g gs = None.
Proof.
  induction 1 as [|[g' v] gs Hg _ IH]; [reflexivity|].
  simpl in *. destruct (N.eqb_spec g' g); [contradiction | exact IH].
Qed.

Lemma pattern_minute :
  pattern false (py "%Y-%m-%d %H:%M")
  = Some (Cat TimeRE_Y (Cat (Chr (ch "-")) (Cat TimeRE_m (Cat (Chr (ch "-"))
            (Cat TimeRE_d (Cat Spaces (Cat TimeRE_H (Cat (Chr (ch ":"))
               (Cat TimeRE_M Eps))))))))).
Proof. reflexivity. Qed.

Lemma pattern_date :
  pattern false (py "%Y-%m-%d")
  = Some (Cat TimeRE_Y (Cat (Chr (ch "-")) (Cat TimeRE_m (Cat (Chr (ch "-"))
            (Cat TimeRE_d Eps))))).
Proof. reflexivity. Qed.

(** The format with hours and minutes accepts no text without a colon. *)
Lemma minute_format_needs_colon date d :
  strptime date (py "%Y-%m-%d %H:%M") = Ok d -> In (ch ":") date.
Proof.
  unfold strptime. rewrite pattern_minute. unfold re_match.
  match goal with
  | |- context [rmatch ?r date [] ?k] =>
      destruct (rmatch r date [] k) as [res|] eqn:E; [|discriminate]
  end.
  intros _.
  do 7 (rewrite rmatch_Cat in E; apply rmatch_sound in E;
        let p := fresh "p" in
        let s := fresh "s" in
        let gs := fresh "gs" in
        destruct E as [p [s [gs [-> [E _]]]]];
        apply in_or_app; right).
  rewrite rmatch_Cat in E. cbn [rmatch] in E.
  match type of E with
  | match ?x with _ => _ end = _ => destruct x as [|c s']; [discriminate|]
  end.
  destruct (N.eqb_spec c (ch ":")) as [->|]; [|discriminate].
  left. reflexivity.
Qed.

Lemma render_date_no_colon y m d : ~ In (ch ":") (render_date y m d).
Proof.
  unfold render_date, pad4, pad2. cbn [app In].
  assert (Hd : forall n, digit_char n <> ch ":")
    by (intros n; apply digit_char_not; right; reflexivity).
  intros Hin.
  repeat (destruct Hin as [Hin | Hin];
          [first [exact (Hd _ Hin) | discriminate Hin]|]).
  exact Hin.
Qed.

Lemma check_date_fields_bounds y m d :
  check_date_fields y m d = true ->
  1 <= y <= 9999 /\ 1 <= m <= 12 /\ 1 <= d <= 31.
Proof.
  unfold check_date_fields. rewrite !andb_true_iff, !Z.leb_le.
  intros [[[[[? ?] ?] ?] ?] Hd].
  assert (days_in_month y m <= 31).
  { unfold days_in_month.
    destruct (m =? 2); [destruct (is_leap y); lia|].
    destruct ((m =? 4) || (m =? 6) || (m =? 9) || (m =? 11)); lia. }
  lia.
Qed.

Lemma check_time_fields_bounds h mi :
  check_time_fields h mi 0 = true -> 0 <= h <= 23 /\ 0 <= mi <= 59.
Proof.
  unfold check_time_fields. rewrite !andb_true_iff, !Z.leb_le. lia.
Qed.

(** A date in the layout [YYYY-MM-DD] is read back by the date-only
    format. *)
Lemma strptime_render_date y m d :
  check_date_fields y m d = true ->
  strptime (render_date y m d) (py "%Y-%m-%d")
  = Ok (mkDatetime y m d 0 0 0 None).
Proof.
  intros Hok.
  destruct (check_date_fields_bounds _ _ _ Hok) as [Hy [Hm Hd]].
  unfold strptime. rewrite pattern_date.
  assert (Hmatch :
    re_match (Cat TimeRE_Y (Cat (Chr (ch "-")) (Cat TimeRE_m
                (Cat (Chr (ch "-")) (Cat TimeRE_d Eps)))))
             (render_date y m d)
    = Some ([(ch "d", pad2 d); (ch "m", pad2 m); (ch "Y", pad4 y)], [])).
  { unfold re_match, render_date.
    rewrite rmatch_Cat, rmatch_Y, rmatch_Cat, rmatch_Chr, rmatch_Cat.
    apply rmatch_m; [exact Hm|].
    rewrite rmatch_Cat, rmatch_Chr, rmatch_Cat.
    rewrite <- (app_nil_r (pad2 d)).
    apply rmatch_d; [exact Hd|]. reflexivity. }
  rewrite Hmatch. unfold field. cbn [group].
  cbv [ch N_of_ascii N.eqb Pos.eqb N_of_digits N.add N.mul Pos.add Pos.mul
       Pos.succ].
  rewrite int_pad4, !int_pad2 by lia.
  rewrite Hok. reflexivity.
Qed.

(** A date and time in the layout [YYYY-MM-DD HH:MM] is read back by the
    first format. *)
Lemma strptime_render_minute y m d h mi :
  check_date_fields y m d = true ->
  check_time_fields h mi 0 = true ->
  strptime (render_minute y m d h mi) (py "%Y-%m-%d %H:%M")
  = Ok (mkDatetime y m d h mi 0 None).
Proof.
  intros Hok Htime.
  destruct (check_date_fields_bounds _ _ _ Hok) as [Hy [Hm Hd]].
  destruct (check_time_fields_bounds _ _ Htime) as [Hh Hmi].
  unfold strptime. rewrite pattern_minute.
  assert (Hmatch :
    re_match (Cat TimeRE_Y (Cat (Chr (ch "-")) (Cat TimeRE_m
                (Cat (Chr (ch "-")) (Cat TimeRE_d (Cat Spaces (Cat TimeRE_H
                   (Cat (Chr (ch ":")) (Cat TimeRE_M Eps)))))))))
             (render_minute y m d h mi)
    = Some ([(ch "M", pad2 mi); (ch "H", pad2 h); (ch "d", pad2 d);
             (ch "m", pad2 m); (ch "Y", pad4 y)], [])).
  { unfold re_match, render_minute, render_date.
    rewrite <- !app_assoc. cbn [app].
    rewrite rmatch_Cat, rmatch_Y, rmatch_Cat, rmatch_Chr, rmatch_Cat.
    apply rmatch_m; [exact Hm|].
    rewrite rmatch_Cat, rmatch_Chr, rmatch_Cat.
    apply rmatch_d; [exact Hd|].
    change (pad2 h ++ ch ":" :: pad2 mi)%list
      with (digit_char (h / 10) :: digit_char h :: ch ":" :: pad2 mi).
    rewrite rmatch_Cat, rmatch_Spaces, rmatch_Cat.
    change (digit_char (h / 10) :: digit_char h :: ch ":" :: pad2 mi)
      with (pad2 h ++ ch ":" :: pad2 mi)%list.
    apply rmatch_H; [exact Hh|].
    rewrite rmatch_Cat, rmatch_Chr, rmatch_Cat.
    rewrite <- (app_nil_r (pad2 mi)).
    apply rmatch_M; [exact Hmi|]. reflexivity. }
  rewrite Hmatch. unfold field. cbn [group].
  cbv [ch N_of_ascii N.eqb Pos.eqb N_of_digits N.add N.mul Pos.add Pos.mul
       Pos.succ].
  rewrite int_pad4, !int_pad2 by lia.
  rewrite Hok, Htime. reflexivity.
Qed.

(** The date-only format binds no hour and no minute: what it accepts is
    midnight. *)
Lemma strptime_date_midnight date d :
  strptime date (py "%Y-%m-%d") = Ok d ->
  hour d = 0 /\ minute d = 0 /\ second d = 0.
Proof.
  unfold strptime. rewrite pattern_date.
  match goal with
  | |- context [re_match ?r date] =>
      destruct (re_match r date) as [[found [|c rest]]|] eqn:E;
        try discriminate
  end.
  unfold re_match in E. apply rmatch_sound in E.
  destruct E as [p [s1 [new [_ [E Hnames]]]]].
  injection E as <- _. rewrite app_nil_r in *.
  assert (Habsent : forall g, g = ch "H" \/ g = ch "M" -> group g new = None).
  { intros g Hg. apply group_absent.
    eapply Forall_impl; [|exact Hnames]. intros e He Heq. cbn beta in He.
    rewrite Heq in He. cbn [group_names TimeRE_Y TimeRE_m TimeRE_d app] in He.
    destruct Hg as [-> | ->];
      repeat (destruct He as [He | He]; [discriminate He|]); exact He. }
  unfold field. rewrite (Habsent (ch "H")), (Habsent (ch "M")) by auto.
  destruct (match group (ch "Y") new with Some v => int v | None => Some 1900
            end) as [y|]; [|discriminate].
  destruct (match group (ch "m") new with Some v => int v | None => Some 1
            end) as [mo|]; [|discriminate].
  destruct (match group (ch "d") new with Some v => int v | None => Some 1
            end) as [dd|]; [|discriminate].
  destruct (check_date_fields y mo dd && check_time_fields 0 0 0);
    [|discriminate].
  intros E. injection E as <-. repeat split.
Qed.

End RoundTripParse.

Section DateClaims.
Context `{UnicodeData} `{TzData} `{Markdown2}.
Local Open Scope Z_scope.

(** C4: the parser tries the format with hours and minutes first and the
    date-only format when that attempt fails; a date alone is midnight.  Both
    results carry the zone America/Chicago. *)
Theorem C4_two_formats_in_turn :
  (forall date,
     pubdate date =
     match strptime date (py "%Y-%m-%d %H:%M") with
     | Ok d => Ok (replace_tzinfo central d)
     | Raise _ =>
         match strptime date (py "%Y-%m-%d") with
         | Ok d => Ok (replace_tzinfo central d)
         | Raise _ => Raise (ValueError (time_data date))
         end
     end) /\
  (forall date d,
     strptime date (py "%Y-%m-%d") = Ok d ->
     hour d = 0 /\ minute d = 0 /\ second d = 0) /\
  strptime (py "2025-05-03") (py "%Y-%m-%d %H:%M")
    = Raise (ValueError (time_data (py "2025-05-03"))) /\
  pubdate (py "2025-05-03")
    = Ok (mkDatetime 2025 5 3 0 0 0 (Some America_Chicago)) /\
  pubdate (py "2025-05-03 14:30")
    = Ok (mkDatetime 2025 5 3 14 30 0 (Some America_Chicago)).
Proof.
  split; [exact pubdate_cases|].
  split; [exact strptime_date_midnight|].
  split; [vm_compute; reflexivity|].
  split; vm_compute; reflexivity.
Qed.

(** C10: the zone is attached to the civil time as parsed, nothing is
    converted; the offset that goes with a publication date is the one the
    zone has on that date: five hours behind UTC for a date in May, six for
    one in January, so no single offset fits all entries. *)
Theorem C10_offset_follows_the_date :
  (forall date dt,
     pubdate date = Ok dt ->
     tzinfo dt = Some America_Chicago /\
     exists naive,
       (strptime date (py "%Y-%m-%d %H:%M") = Ok naive \/
        strptime date (py "%Y-%m-%d") = Ok naive) /\
       dt = mkDatetime (year naive) (month naive) (day naive) (hour naive)
              (minute naive) (second naive) (Some America_Chicago)) /\
  (exists may,
     pubdate (py "2025-05-03") = Ok may /\
     utcoffset may = Some (-18000) /\ strftime_z may = Some (py "-0500")) /\
  (exists january,
     pubdate (py "2025-01-15") = Ok january /\
     utcoffset january = Some (-21600) /\
     strftime_z january = Some (py "-0600")) /\
  (forall now doc,
     main now (mkFiles (Some Samples.two_seasons) None)
     = (Ok tt, mkFiles (Some Samples.two_seasons) (Some doc)) ->
     map (fun el => match item_pubDate el with
                    | Some dt => strftime_z dt
                    | None => None
                    end) (channel_items doc)
     = [Some (py "-0600"); Some (py "-0500")]) /\
  ~ (exists offset,
       forall date dt, pubdate date = Ok dt -> utcoffset dt = Some offset).
Proof.
  split; [|split; [|split; [|split]]].
  - intros date dt. rewrite pubdate_cases.
    destruct (strptime date (py "%Y-%m-%d %H:%M")) as [d|e] eqn:E1.
    + intros E. injection E as <-. split; [reflexivity|].
      exists d. split; [left; reflexivity | reflexivity].
    + destruct (strptime date (py "%Y-%m-%d")) as [d|e2] eqn:E2;
        [|discriminate].
      intros E. injection E as <-. split; [reflexivity|].
      exists d. split; [right; reflexivity | reflexivity].
  - eexists. split; [vm_compute; reflexivity|].
    split; vm_compute; reflexivity.
  - eexists. split; [vm_compute; reflexivity|].
    split; vm_compute; reflexivity.
  - intros now doc Hrun.
    rewrite (written_items _ _ _ _ Hrun).
    vm_compute. reflexivity.
  - intros [offset Hall].
    assert (H5 := Hall (py "2025-05-03") _ eq_refl).
    assert (H6 := Hall (py "2025-01-15") _ eq_refl).
    vm_compute in H5, H6. congruence.
Qed.

End DateClaims.

Section AcceptedTexts.
Context `{UnicodeData}.
Local Open Scope Z_scope.

Lemma pubdate_render_date y m d :
  check_date_fields y m d = true ->
  pubdate (render_date y m d)
  = Ok (mkDatetime y m d 0 0 0 (Some America_Chicago)).
Proof.
  intros Hok. rewrite pubdate_cases.
  destruct (strptime (render_date y m d) (py "%Y-%m-%d %H:%M")) eqn:E.
  - apply minute_format_needs_colon in E.
    destruct (render_date_no_colon _ _ _ E).
  - rewrite (strptime_render_date _ _ _ Hok). reflexivity.
Qed.

Lemma pubdate_render_minute y m d h mi :
  check_date_fields y m d = true ->
  check_time_fields h mi 0 = true ->
  pubdate (render_minute y m d h mi)
  = Ok (mkDatetime y m d h mi 0 (Some America_Chicago)).
Proof.
  intros Hok Htime. rewrite pubdate_cases.
  rewrite (strptime_render_minute _ _ _ _ _ Hok Htime). reflexivity.
Qed.

Lemma literal_shape_render_date y m d :
  literal_shape (render_date y m d) = true.
Proof.
  unfold literal_shape, render_date, pad4, pad2. cbn [app date_shape forallb].
  rewrite !ascii_digit_digit_char. reflexivity.
Qed.

Lemma literal_shape_render_minute y m d h mi :
  literal_shape (render_minute y m d h mi) = true.
Proof.
  unfold literal_shape, render_minute, render_date, pad4, pad2.
  cbn [app date_shape forallb firstn skipn].
  rewrite !ascii_digit_digit_char. reflexivity.
Qed.

(** C9: the parser takes more than the two layouts.  Fields without their
    leading zero are read ([2025-5-3], [2025-05-03 9:05]), and these texts
    have not the shape of either layout; every date and every date and time
    written in the layouts is read as what it says.  The accepted texts are
    thus strictly more than the texts in the two layouts. *)
Theorem C9_unpadded_fields_accepted :
  pubdate (py "2025-5-3")
    = Ok (mkDatetime 2025 5 3 0 0 0 (Some America_Chicago)) /\
  pubdate (py "2025-05-03 9:05")
    = Ok (mkDatetime 2025 5 3 9 5 0 (Some America_Chicago)) /\
  literal_shape (py "2025-5-3") = false /\
  literal_shape (py "2025-05-03 9:05") = false /\
  (forall y m d,
     check_date_fields y m d = true ->
     literal_shape (render_date y m d) = true /\
     pubdate (render_date y m d)
       = Ok (mkDatetime y m d 0 0 0 (Some America_Chicago))) /\
  (forall y m d h mi,
     check_date_fields y m d = true ->
     check_time_fields h mi 0 = true ->
     literal_shape (render_minute y m d h mi) = true /\
     pubdate (render_minute y m d h mi)
       = Ok (mkDatetime y m d h mi 0 (Some America_Chicago))).
Proof.
  split; [vm_compute; reflexivity|].
  split; [vm_compute; reflexivity|].
  split; [reflexivity|].
  split; [reflexivity|].
  split.
  - intros y m d Hok. split;
      [apply literal_shape_render_date | apply pubdate_render_date; exact Hok].
  - intros y m d h mi Hok Htime. split;
      [apply literal_shape_render_minute
      | apply pubdate_render_minute; assumption].
Qed.

End AcceptedTexts.

(* ================================================================== *)
(** ** The claims at sample inputs *)

Section AtSamples.
Import Samples.
#[local] Existing Instance ascii_only.
#[local] Existing Instance paragraph.
#[local] Existing Instance cst_always.
Local Open Scope Z_scope.

(** C1, as stated, fails: with two bullet lines [first] and [second] under
    one heading, the written document has [second] in front of [first]. *)
Lemma C1_parse_order_counterexample :
  exists doc,
    main noon (mkFiles (Some two_bullets) None)
    = (Ok tt, mkFiles (Some two_bullets) (Some doc)) /\
    map snd (items two_bullets) = [py "first"; py "second"] /\
    map item_title (channel_items doc)
    = [Some (py "second"); Some (py "first")] /\
    channel_items doc <> map item_elem (items two_bullets).
Proof.
  eexists. split; [vm_compute; reflexivity|].
  split; [reflexivity|]. split; [reflexivity|].
  vm_compute. discriminate.
Qed.

Lemma C1_items_in_reverse_parse_order_witness :
  main noon (mkFiles (Some two_bullets) None)
  = (Ok tt, mkFiles (Some two_bullets)
              (Some (feed_document noon
                       (rev (map item_elem (items two_bullets)))))) /\
  channel_items (feed_document noon (rev (map item_elem (items two_bullets))))
  = rev (map item_elem (items two_bullets)).
Proof.
  split; [vm_compute; reflexivity|].
  apply (C1_items_in_reverse_parse_order noon two_bullets None).
  vm_compute. reflexivity.
Defined.


Lemma C3_one_item_per_bullet_line_witness :
  well_formed scenario = true /\
  bullet_count scenario = 3%nat /\
  length (items scenario) = bullet_count scenario /\
  exists doc,
    main noon (mkFiles (Some scenario) None)
    = (Ok tt, mkFiles (Some scenario) (Some doc))
    /\ length (channel_items doc) = bullet_count scenario.
Proof.
  assert (Hwf : well_formed scenario = true) by (vm_compute; reflexivity).
  assert (Hxml : first_refused (rev (items scenario)) = None)
    by (vm_compute; reflexivity).
  split; [exact Hwf|]. split; [vm_compute; reflexivity|].
  destruct (C3_one_item_per_bullet_line noon scenario None Hwf)
    as [Hlen [_ Hrun]].
  split; [exact Hlen|]. rewrite Hxml in Hrun. exact Hrun.
Defined.

(** A well-formed document with a control character in its one bullet line:
    the loop ends well and lxml stops the run in [fg.rss_file]. *)
Lemma control_character_refused :
  well_formed control_character = true /\
  bullet_count control_character = 1%nat /\
  main noon (mkFiles (Some control_character) None)
  = (Raise (ValueError not_xml_compatible),
     mkFiles (Some control_character) None).
Proof. repeat split; vm_compute; reflexivity. Qed.

(** C5, as stated, fails: a heading whose date is rejected but which has no
    bullet line under it stops nothing; the run ends well and writes the
    document. *)
Lemma C5_heading_without_bullets_counterexample :
  sections bad_heading_only = [py "not-a-date" ++ nl] /\
  parses (py "not-a-date") = false /\
  well_formed bad_heading_only = false /\
  main noon (mkFiles (Some bad_heading_only) None)
  = (Ok tt, mkFiles (Some bad_heading_only) (Some (feed_document noon []))).
Proof.
  split; [reflexivity|]. split; [reflexivity|]. split; [reflexivity|].
  vm_compute. reflexivity.
Qed.

Lemma C4_two_formats_in_turn_witness :
  strptime (py "2024-02-29") (py "%Y-%m-%d")
  = Ok (mkDatetime 2024 2 29 0 0 0 None) /\
  (hour (mkDatetime 2024 2 29 0 0 0 None) = 0 /\
   minute (mkDatetime 2024 2 29 0 0 0 None) = 0 /\
   second (mkDatetime 2024 2 29 0 0 0 None) = 0).
Proof.
  split; [vm_compute; reflexivity|].
  apply (proj1 (proj2 C4_two_formats_in_turn) (py "2024-02-29")).
  vm_compute. reflexivity.
Defined.

Lemma C5_first_bad_item_date_aborts_witness :
  let its1 := [(py "2025-05-01", py "fine")] in
  let its2 := [(py "also bad", py "never reached")] in
  let h := mkHeap (FeedGenerator_init noon) [] in
  ((items bad_date_second = its1 ++ (py "not-a-date", py "lost") :: its2 /\
    first_bad_date its1 = None /\
    parses (py "not-a-date") = false) /\
   (main noon (mkFiles (Some bad_date_second) None)
    = (Raise (ValueError (time_data (py "not-a-date"))),
       mkFiles (Some bad_date_second) None)
    /\ exit_status (fst (main noon (mkFiles (Some bad_date_second) None))) = 1
    /\ exists h',
         for_each (items bad_date_second) feed_entry h
         = (Raise (ValueError (time_data (py "not-a-date"))), h')
         /\ length (objects h') = (length (objects h) + S (length its1))%nat))
  /\
  ((forall section,
      In section (section_texts bad_heading_only) ->
      count_bullets (tl (text_lines section)) = 0%nat \/
      parses (heading_text section) = true) /\
   forall date,
     fst (main noon (mkFiles (Some bad_heading_only) None))
     <> Raise (ValueError (time_data date))).
Proof.
  intros its1 its2 h. split.
  - split; [split; [reflexivity | split; reflexivity]|].
    apply (proj1 (C5_first_bad_item_date_aborts noon bad_date_second None)
             its1 (py "not-a-date") (py "lost") its2 h); reflexivity.
  - assert (Hsecs : forall section,
               In section (section_texts bad_heading_only) ->
               count_bullets (tl (text_lines section)) = 0%nat \/
               parses (heading_text section) = true).
    { intros section [<- | []]. left. reflexivity. }
    split; [exact Hsecs|].
    exact (proj1 (proj2 (proj2 (C5_first_bad_item_date_aborts
                                  noon bad_heading_only None)) Hsecs)).
Defined.

Lemma C6_title_is_content_cut_at_60_witness :
  let long := py "The schedule for the day has been published on the event site today" in
  let h := mkHeap (FeedGenerator_init noon) [] in
  let e := nth 0 (objects (snd (feed_entry (py "2025-05-01", long) h)))
               (mkFeedEntry None None None) in
  (60 < length long)%nat /\
  exists title rest,
    entry_title e = Some title /\ long = title ++ rest /\
    length title = 60%nat.
Proof.
  intros long h e. split; [vm_compute; lia|].
  apply (proj2 (C6_title_is_content_cut_at_60 (py "2025-05-01", long) h)).
  vm_compute. lia.
Defined.

(** C7, as stated, fails: under a heading line without text, the bullet line
    [- a] is a line behind the first line of the section, yet it adds no
    item; it is taken as the date of the one item, that of the line [- b]. *)
Lemma C7_bullet_under_blank_heading_counterexample :
  section_texts blank_heading = [nl ++ py "- a" ++ nl ++ py "- b" ++ nl] /\
  text_lines (nl ++ py "- a" ++ nl ++ py "- b" ++ nl)
  = [[]; py "- a"; py "- b"] /\
  is_bullet (py "- a") = true /\
  items blank_heading = [(py "- a", py "b")] /\
  items blank_heading
  <> flat_map (line_item []) [py "- a"; py "- b"].
Proof.
  split; [reflexivity|]. split; [reflexivity|]. split; [reflexivity|].
  split; [reflexivity|]. vm_compute. discriminate.
Qed.

Lemma C7_item_iff_bullet_behind_the_date_witness :
  (trimmed (py "  - Venue map published  ")
   = py "- " ++ py "Venue map published"
   /\ scan_line (py "2025-05-01") [] (py "  - Venue map published  ")
      = [] ++ [(py "2025-05-01", py "Venue map published")]) /\
  ((text_lines (py " 2025-05-01 " ++ nl ++ py "- first" ++ nl)
    = [py " 2025-05-01 "; py "- first"] /\
    trimmed (py " 2025-05-01 ") <> []) /\
   scan_section [] (py " 2025-05-01 " ++ nl ++ py "- first" ++ nl)
   = [] ++ flat_map (line_item (trimmed (py " 2025-05-01 "))) [py "- first"]).
Proof.
  split.
  - split; [reflexivity|].
    apply (proj1 C7_item_iff_bullet_behind_the_date (py "2025-05-01") []
             (py "  - Venue map published  ") (py "Venue map published")).
    reflexivity.
  - assert (Hlines : text_lines (py " 2025-05-01 " ++ nl ++ py "- first" ++ nl)
                     = [py " 2025-05-01 "; py "- first"]) by reflexivity.
    assert (Hdate : trimmed (py " 2025-05-01 ") <> []) by discriminate.
    split; [split; [exact Hlines | exact Hdate]|].
    exact (proj1 (proj2 (proj2 (proj2 C7_item_iff_bullet_behind_the_date)))
             [] _ _ _ Hlines Hdate).
Defined.

Lemma C8_item_content_not_empty_witness :
  In (py "2025-05-01", py "second") (items two_bullets) /\
  (py "second" <> [] /\
   exists front c, py "second" = front ++ [c] /\ is_space c = false).
Proof.
  split; [vm_compute; right; left; reflexivity|].
  apply (proj1 C8_item_content_not_empty two_bullets
           (py "2025-05-01", py "second")).
  vm_compute. right. left. reflexivity.
Defined.

Lemma C9_unpadded_fields_accepted_witness :
  (check_date_fields 2024 2 29 = true /\
   check_time_fields 23 59 0 = true) /\
  (literal_shape (render_minute 2024 2 29 23 59) = true /\
   pubdate (render_minute 2024 2 29 23 59)
   = Ok (mkDatetime 2024 2 29 23 59 0 (Some America_Chicago))).
Proof.
  split; [split; reflexivity|].
  apply (proj2 (proj2 (proj2 (proj2 (proj2 C9_unpadded_fields_accepted))))
           2024 2 29 23 59); reflexivity.
Defined.

Lemma C10_offset_follows_the_date_witness :
  pubdate (py "2025-11-02 01:30")
  = Ok (mkDatetime 2025 11 2 1 30 0 (Some America_Chicago)) /\
  (tzinfo (mkDatetime 2025 11 2 1 30 0 (Some America_Chicago))
   = Some America_Chicago /\
   exists naive,
     (strptime (py "2025-11-02 01:30") (py "%Y-%m-%d %H:%M") = Ok naive \/
      strptime (py "2025-11-02 01:30") (py "%Y-%m-%d") = Ok naive) /\
     mkDatetime 2025 11 2 1 30 0 (Some America_Chicago)
     = mkDatetime (year naive) (month naive) (day naive) (hour naive)
         (minute naive) (second naive) (Some America_Chicago)).
Proof.
  split; [vm_compute; reflexivity|].
  apply (proj1 C10_offset_follows_the_date (py "2025-11-02 01:30")).
  vm_compute. reflexivity.
Defined.

End AtSamples.

(* ================================================================== *)
(** ** Counting the headings *)


Section HeadingCount.
Local Open Scope N_scope.

Lemma count_headings_behind_marker (s3 : str) :
  count_headings false (py "## " ++ s3) = count_headings false s3.
Proof. reflexivity. Qed.

Lemma split_h2_length n : forall bol (s : str),
  (length s <= n)%nat ->
  length (split_h2 bol s) = S (count_headings bol s).
Proof.
  induction n as [|n IH]; intros bol s Hn.
  - destruct s; [reflexivity | simpl in Hn; lia].
  - destruct s as [|c s1]; [reflexivity|]. simpl in Hn.
    cbn [count_headings].
    destruct (bol && startswith (py "## ") (c :: s1)) eqn:Hm.
    + apply andb_true_iff in Hm. destruct Hm as [-> Hm].
      apply startswith_iff in Hm. destruct Hm as [s3 Hs3].
      assert (Hlen : (length s3 <= n)%nat).
      { apply (f_equal (@length _)) in Hs3. rewrite length_app in Hs3.
        simpl in Hs3. lia. }
      change (c :: s1) with ([c] ++ s1) in Hs3.
      assert (Hc : c = 35 /\ s1 = py "# " ++ s3)
        by (injection Hs3 as -> ->; split; reflexivity).
      destruct Hc as [-> ->].
      change (35 :: py "# " ++ s3) with (py "## " ++ s3).
      rewrite split_h2_marker. cbn [length].
      rewrite (IH _ _ Hlen).
      change (count_headings (35 =? 10) (py "# " ++ s3))
        with (count_headings false s3).
      reflexivity.
    + rewrite (split_h2_cons_other _ _ _ Hm).
      specialize (IH (c =? 10) s1 ltac:(lia)).
      destruct (split_h2 (c =? 10) s1) as [|p ps]; [discriminate IH|].
      exact IH.
Qed.

(** There is one section per line that begins with the marker [## ]; what
    stands in front of the first such line is no section. *)
Theorem one_section_per_heading md :
  length (sections md) = count_headings true md.
Proof.
  unfold sections, re_split_h2.
  pose proof (split_h2_length (length md) true md (le_n _)) as Hlen.
  destruct (split_h2 true md); [discriminate Hlen|].
  cbn [tl]. cbn [length] in Hlen. congruence.
Qed.

End HeadingCount.


(* ================================================================== *)
(** ** Further properties of the extractor *)

Section ExtractorProperties.
Local Open Scope N_scope.

(** Cutting a text at its headings loses nothing but the markers: the
    pieces, each but the first with the marker [## ] put back in front, are
    the text. *)
Theorem split_pieces_rejoin md : join_h2 (re_split_h2 md) = md.
Proof. apply (split_h2_join (length md)). reflexivity. Qed.

(** A heading that starts on a fresh line cuts the document in two: the
    items of the whole are the items of the part in front followed by the
    items of the part from the heading on. *)
Theorem items_of_appended_sections (a b : str) :
  a = [] \/ (exists a' : str, a = a' ++ [10]) ->
  items (a ++ py "## " ++ b) = items a ++ items (py "## " ++ b).
Proof. apply items_app. Qed.

Lemma items_of_appended_sections_witness :
  (old_log = [] \/ (exists a' : str, old_log = a' ++ [10])) /\
  items (old_log ++ py "## " ++ new_section)
  = items old_log ++ items (py "## " ++ new_section).
Proof.
  assert (Hline : old_log = [] \/ (exists a' : str, old_log = a' ++ [10])).
  { right. exists (removelast old_log). reflexivity. }
  split; [exact Hline|].
  apply (items_of_appended_sections old_log new_section Hline).
Defined.

(** Text in front of the first heading is dropped: when no line of [a]
    begins with [## ], the items are those of the text from the first heading
    on, whatever [a] holds, bullet lines included. *)
Theorem text_before_first_heading_dropped (a b : str) :
  a = [] \/ (exists a' : str, a = a' ++ [10]) ->
  has_heading true a = false ->
  items (a ++ py "## " ++ b) = items (py "## " ++ b).
Proof.
  intros Ha Hno. rewrite (items_app _ _ Ha), (items_no_heading _ Hno).
  reflexivity.
Qed.

Lemma text_before_first_heading_dropped_witness :
  ((no_heading = [] \/ (exists a' : str, no_heading = a' ++ [10])) /\
   has_heading true no_heading = false) /\
  items (no_heading ++ py "## " ++ new_section)
  = items (py "## " ++ new_section).
Proof.
  assert (Hline : no_heading = [] \/
                  (exists a' : str, no_heading = a' ++ [10])).
  { right. exists (removelast no_heading). reflexivity. }
  split; [split; [exact Hline | reflexivity]|].
  apply (text_before_first_heading_dropped no_heading new_section Hline).
  reflexivity.
Defined.

(** Whitespace around a line, indentation included, and whitespace or blank
    lines around a section change nothing: the line adds the same item, the
    section the same items. *)
Theorem surrounding_whitespace_ignored date items w1 w2 :
  Forall (fun c => is_space c = true) w1 ->
  Forall (fun c => is_space c = true) w2 ->
  (forall line,
     scan_line date items (w1 ++ line ++ w2) = scan_line date items line) /\
  (forall section,
     scan_section items (w1 ++ section ++ w2) = scan_section items section).
Proof.
  intros H1 H2. split.
  - intros line. unfold scan_line. rewrite (strip_surrounded _ _ _ H1 H2).
    reflexivity.
  - intros section. unfold scan_section.
    rewrite (strip_surrounded _ _ _ H1 H2). reflexivity.
Qed.

Lemma surrounding_whitespace_ignored_witness :
  (Forall (fun c => is_space c = true) [9; 32; 160] /\
   Forall (fun c => is_space c = true) [32; 13; 10]) /\
  scan_line (py "2025-05-01") [] ([9; 32; 160] ++ py "- Doors open" ++ [32; 13; 10])
  = scan_line (py "2025-05-01") [] (py "- Doors open").
Proof.
  assert (H1 : Forall (fun c => is_space c = true) [9; 32; 160])
    by (repeat constructor).
  assert (H2 : Forall (fun c => is_space c = true) [32; 13; 10])
    by (repeat constructor).
  split; [split; assumption|].
  apply (proj1 (surrounding_whitespace_ignored (py "2025-05-01") []
                  [9; 32; 160] [32; 13; 10] H1 H2)).
Defined.

(** Every extracted item has a date that is not empty and is its own
    trimming, and neither its date nor its content holds a line boundary. *)
Theorem item_fields_are_single_trimmed_lines md (item : NewsItem) :
  In item (items md) ->
  fst item <> [] /\
  strip (fst item) = fst item /\
  (forall c, In c (fst item) -> is_linebreak c = false) /\
  (forall c, In c (snd item) -> is_linebreak c = false).
Proof.
  intros Hin.
  destruct (items_shape _ _ Hin)
    as [section [line0 [lines1 [line [_ [Hl [Hline [Hd Hc]]]]]]]].
  rewrite Hd. split; [exact (first_line_not_blank _ _ _ Hl)|].
  split; [apply strip_fixed|]. split.
  - intros c Hc'. apply strip_incl in Hc'.
    apply (splitlines_no_break (length (strip section)) (strip section))
      with (l := line0); [reflexivity | rewrite Hl; left; reflexivity | exact Hc'].
  - intros c Hc'.
    assert (Hin' : In c (strip line))
      by (rewrite Hc; apply in_or_app; right; exact Hc').
    apply strip_incl in Hin'.
    apply (splitlines_no_break (length (strip section)) (strip section))
      with (l := line); [reflexivity | rewrite Hl; right; exact Hline | exact Hin'].
Qed.

Lemma item_fields_are_single_trimmed_lines_witness :
  In (py "2025-05-01", py "Registration opens") (items old_log) /\
  (py "2025-05-01" <> [] /\
   strip (py "2025-05-01") = py "2025-05-01" /\
   (forall c, In c (py "2025-05-01") -> is_linebreak c = false) /\
   (forall c, In c (py "Registration opens") -> is_linebreak c = false)).
Proof.
  assert (Hin : In (py "2025-05-01", py "Registration opens") (items old_log))
    by (vm_compute; left; reflexivity).
  split; [exact Hin|].
  apply (item_fields_are_single_trimmed_lines old_log _ Hin).
Defined.

End ExtractorProperties.

(* ================================================================== *)
(** ** Further properties of a run *)

Section RunProperties.
Context `{UnicodeData} `{Markdown2}.
Local Open Scope Z_scope.

Lemma strptime_valid data format d :
  strptime data format = Ok d ->
  check_date_fields (year d) (month d) (day d) = true /\
  check_time_fields (hour d) (minute d) 0 = true /\
  second d = 0 /\ tzinfo d = None.
Proof.
  unfold strptime.
  destruct (pattern false format); [|discriminate].
  destruct (re_match r data) as [[found [|c rest]]|]; try discriminate.
  destruct (field "Y" 1900 found), (field "m" 1 found), (field "d" 1 found),
           (field "H" 0 found), (field "M" 0 found); try discriminate.
  destruct (check_date_fields z z0 z1 && check_time_fields z2 z3 0) eqn:E;
    [|discriminate].
  apply andb_true_iff in E. destruct E as [E1 E2].
  intros Ed. injection Ed as <-. cbn. repeat split; assumption.
Qed.

Lemma pubdate_valid date dt :
  pubdate date = Ok dt ->
  check_date_fields (year dt) (month dt) (day dt) = true /\
  check_time_fields (hour dt) (minute dt) 0 = true /\
  second dt = 0 /\ tzinfo dt = Some America_Chicago.
Proof.
  rewrite pubdate_cases.
  destruct (strptime date (py "%Y-%m-%d %H:%M")) as [d|e] eqn:E1.
  - intros E. injection E as <-.
    destruct (strptime_valid _ _ _ E1) as [? [? [? _]]]. cbn. auto.
  - destruct (strptime date (py "%Y-%m-%d")) as [d|e2] eqn:E2; [|discriminate].
    intros E. injection E as <-.
    destruct (strptime_valid _ _ _ E2) as [? [? [? _]]]. cbn. auto.
Qed.

Lemma first_bad_in its date :
  first_bad_date its = Some date ->
  exists content, In (date, content) its /\ parses date = false.
Proof.
  intros Hbad.
  destruct (first_bad_split _ _ Hbad) as [its1 [c [its2 [-> [_ Hp]]]]].
  exists c. split; [|exact Hp]. apply in_or_app. right. left. reflexivity.
Qed.


Lemma main_ok_inv now md old doc :
  main now (mkFiles (Some md) old) = (Ok tt, mkFiles (Some md) (Some doc)) ->
  first_bad_date (items md) = None /\
  first_refused (rev (items md)) = None /\
  doc = feed_document now (rev (map item_elem (items md))).
Proof.
  rewrite main_spec.
  destruct (first_bad_date (items md)); [discriminate|].
  destruct (first_refused (rev (items md))); [discriminate|].
  intros E. injection E as <-. repeat split; reflexivity.
Qed.

Lemma utf8_error_character (s : str) why :
  utf8_error s = Some why ->
  exists c, In c s /\
    match why with
    | surrogates_not_allowed => is_surrogate c = true
    | not_xml_compatible => xml_char c = false
    | _ => False
    end.
Proof.
  unfold utf8_error.
  destruct (existsb is_surrogate s) eqn:Es.
  - intros E. injection E as <-. apply existsb_exists in Es. exact Es.
  - destruct (forallb xml_char s) eqn:Ex; [discriminate|].
    intros E. injection E as <-.
    assert (Hex : existsb (fun c => negb (xml_char c)) s = true).
    { clear Es. induction s as [|c s IH]; [discriminate|].
      simpl in *. destruct (xml_char c); [exact (IH Ex) | reflexivity]. }
    apply existsb_exists in Hex. destruct Hex as [c [Hin Hc]].
    exists c. split; [exact Hin|]. now destruct (xml_char c).
Qed.

Lemma item_error_character (item : NewsItem) why :
  item_error item = Some why ->
  exists text c,
    (text = slice_to 60 (snd item) \/ text = markdown (snd item)) /\
    In c text /\
    match why with
    | surrogates_not_allowed => is_surrogate c = true
    | not_xml_compatible => xml_char c = false
    | _ => False
    end.
Proof.
  unfold item_error.
  destruct (utf8_error (slice_to 60 (snd item))) as [why'|] eqn:Et.
  - intros E. injection E as <-.
    destruct (utf8_error_character _ _ Et) as [c [Hin Hc]].
    exists (slice_to 60 (snd item)), c. auto.
  - intros Ed. destruct (utf8_error_character _ _ Ed) as [c [Hin Hc]].
    exists (markdown (snd item)), c. auto.
Qed.

(** How a run can end, the input being a text that can be read and the
    output a path that can be written.  It ends well exactly on an input
    whose items all
    carry dates that parse and texts that lxml takes; it dies of
    [FileNotFoundError] exactly when the input is missing; the [ValueError]
    of [strptime] is about the date of some item; the two refusals of lxml
    are about a character in the title or the description of some item, all
    dates having parsed; the complaints of feedgen about missing fields or a
    missing time zone never come. *)
Theorem run_outcomes now fs :
  match fst (main now fs) with
  | Ok _ =>
      exists md, newsfeed_md fs = Some md /\
                 Forall (fun item : NewsItem => parses (fst item) = true)
                        (items md) /\
                 Forall (fun item : NewsItem => item_error item = None)
                        (items md)
  | Raise FileNotFoundError => newsfeed_md fs = None
  | Raise (ValueError (time_data date)) =>
      exists md content,
        newsfeed_md fs = Some md /\ In (date, content) (items md) /\
        parses date = false
  | Raise (ValueError surrogates_not_allowed) =>
      exists md date content text c,
        newsfeed_md fs = Some md /\ In (date, content) (items md) /\
        Forall (fun item : NewsItem => parses (fst item) = true) (items md) /\
        (text = slice_to 60 content \/ text = markdown content) /\
        In c text /\ is_surrogate c = true
  | Raise (ValueError not_xml_compatible) =>
      exists md date content text c,
        newsfeed_md fs = Some md /\ In (date, content) (items md) /\
        Forall (fun item : NewsItem => parses (fst item) = true) (items md) /\
        (text = slice_to 60 content \/ text = markdown content) /\
        In c text /\ xml_char c = false
  | Raise (ValueError _) => False
  end.
Proof.
  destruct fs as [[md|] old]; [|reflexivity].
  rewrite main_spec.
  destruct (first_bad_date (items md)) as [date|] eqn:Hbad; cbn [fst].
  - destruct (first_bad_in _ _ Hbad) as [content [Hin Hp]].
    exists md, content. repeat split; assumption.
  - apply first_bad_none in Hbad.
    destruct (first_refused (rev (items md))) as [why|] eqn:Hxml; cbn [fst].
    + destruct (first_refused_in _ _ Hxml) as [[date content] [Hin Hwhy]].
      rewrite <- in_rev in Hin.
      destruct (item_error_character _ _ Hwhy) as [text [c [Ht [Hc Hbadc]]]].
      cbn [snd] in Ht.
      destruct why; try contradiction;
        exists md, date, content, text, c; repeat split; assumption.
    + exists md. split; [reflexivity|]. split; [exact Hbad|].
      apply first_refused_none in Hxml.
      apply Forall_forall. intros item Hin. rewrite Forall_forall in Hxml.
      apply Hxml. rewrite <- in_rev. exact Hin.
Qed.

Lemma first_refused_some its (item : NewsItem) :
  In item its -> item_error item <> None -> first_refused its <> None.
Proof.
  intros Hin Hitem Hnone. apply first_refused_none in Hnone.
  rewrite Forall_forall in Hnone. exact (Hitem (Hnone _ Hin)).
Qed.

Lemma utf8_error_refuses (s : str) c :
  In c s -> xml_char c = false -> utf8_error s <> None.
Proof.
  intros Hin Hc. unfold utf8_error.
  destruct (existsb is_surrogate s); [discriminate|].
  destruct (forallb xml_char s) eqn:E; [|discriminate].
  rewrite forallb_forall in E. rewrite (E _ Hin) in Hc. discriminate.
Qed.

(** A character XML does not allow among the first 60 of a bullet's content,
    such as a control character, stops the run after the loop: when all dates
    parse, [fg.rss_file] raises the [ValueError] of lxml, the exit status is
    1 and the files are as they were. *)
Theorem forbidden_character_stops_the_writer now md old date content c :
  Forall (fun item : NewsItem => parses (fst item) = true) (items md) ->
  In (date, content) (items md) ->
  In c (slice_to 60 content) ->
  xml_char c = false ->
  exists why,
    main now (mkFiles (Some md) old)
    = (Raise (ValueError why), mkFiles (Some md) old) /\
    (why = not_xml_compatible \/ why = surrogates_not_allowed) /\
    exit_status (fst (main now (mkFiles (Some md) old))) = 1.
Proof.
  intros Hdates Hin Hc Hbad.
  apply first_bad_none in Hdates. rewrite main_spec, Hdates.
  assert (Hitem : item_error (date, content) <> None).
  { unfold item_error. cbn [snd].
    pose proof (utf8_error_refuses _ _ Hc Hbad) as Ht.
    destruct (utf8_error (slice_to 60 content)); [discriminate | congruence]. }
  assert (Hin' : In (date, content) (rev (items md)))
    by (rewrite <- in_rev; exact Hin).
  pose proof (first_refused_some _ _ Hin' Hitem) as Hsome.
  destruct (first_refused (rev (items md))) as [why|] eqn:E; [|congruence].
  exists why. split; [reflexivity|]. split; [|reflexivity].
  destruct (first_refused_in _ _ E) as [item [_ Hwhy]].
  destruct (item_error_character _ _ Hwhy) as [text [c' [_ [_ Hkind]]]].
  destruct why; try contradiction; auto.
Qed.

(** A document without a level-two heading, the empty document included,
    is no error: the run ends well and writes a feed without items. *)
Theorem no_heading_gives_empty_feed now md old :
  has_heading true md = false ->
  main now (mkFiles (Some md) old)
  = (Ok tt, mkFiles (Some md) (Some (feed_document now []))).
Proof.
  intros Hno. rewrite main_spec, (items_no_heading _ Hno). reflexivity.
Qed.


End RunProperties.

Section DocumentProperties.
Context `{UnicodeData} `{Markdown2}.
Local Open Scope Z_scope.

Lemma item_elem_shape (item : NewsItem) dt :
  snd item <> [] ->
  pubdate (fst item) = Ok dt ->
  exists t,
    item_elem item = mkItem (Some t) (truthy (Some (markdown (snd item))))
                       (Some dt) /\
    (1 <= length t <= 60)%nat /\
    exists rest, snd item = t ++ rest.
Proof.
  destruct item as [date [|c content]]; [simpl; congruence|].
  cbn [fst snd]. intros _ Hdt.
  exists (c :: firstn 59 content).
  unfold item_elem, parsed, slice_to. cbn [fst snd]. rewrite Hdt.
  change (firstn 60 (c :: content)) with (c :: firstn 59 content).
  split; [reflexivity|]. split.
  - cbn [length]. rewrite length_firstn. lia.
  - exists (skipn 59 content). cbn [app]. now rewrite firstn_skipn.
Qed.

(** The shape of every written document: the channel title, link and
    description are the three constants of the script, whatever the input;
    there is one [item] per extracted item; every [item] has a title of 1 to
    60 characters that the content of some bullet line begins with, and a
    publication date that is a real calendar date on a full minute in the
    zone America/Chicago. *)
Theorem written_document_shape now md old doc :
  main now (mkFiles (Some md) old) = (Ok tt, mkFiles (Some md) (Some doc)) ->
  channel_title doc = py "SQL Saturday News" /\
  channel_link doc = py "https://github.com/KennyNeal/SQL-Saturday-2025" /\
  channel_description doc
  = py "Latest news and updates for SQL Saturday Baton Rouge 2025" /\
  length (channel_items doc) = length (items md) /\
  Forall (fun el =>
            exists t dt date content rest,
              In (date, content) (items md) /\
              item_title el = Some t /\ content = t ++ rest /\
              (1 <= length t <= 60)%nat /\
              item_pubDate el = Some dt /\
              tzinfo dt = Some America_Chicago /\
              check_date_fields (year dt) (month dt) (day dt) = true /\
              check_time_fields (hour dt) (minute dt) 0 = true /\
              second dt = 0)
         (channel_items doc).
Proof.
  intros Hrun. apply main_ok_inv in Hrun. destruct Hrun as [Hok [_ ->]].
  cbn [channel_title channel_link channel_description channel_items
       feed_document].
  split; [reflexivity|]. split; [reflexivity|]. split; [reflexivity|].
  split; [now rewrite length_rev, length_map|].
  apply Forall_forall. intros el Hel.
  rewrite <- in_rev, in_map_iff in Hel. destruct Hel as [item [<- Hin]].
  apply first_bad_none in Hok. rewrite Forall_forall in Hok.
  specialize (Hok _ Hin). apply parses_parsed in Hok. destruct Hok as [dt Hdt].
  pose proof (items_nonempty md) as Hne. rewrite Forall_forall in Hne.
  destruct (item_elem_shape _ _ (Hne _ Hin) Hdt) as [t [-> [Hlen [rest Hrest]]]].
  destruct (pubdate_valid _ _ Hdt) as [Hd [Ht [Hs Hz]]].
  exists t, dt, (fst item), (snd item), rest.
  cbn [item_title item_pubDate].
  destruct item as [date content]. cbn [fst snd] in *.
  repeat split; try assumption; lia.
Qed.

(** Whatever the parser accepts is a date of the calendar, year 1 to 9999,
    with the hour below 24 and the minute below 60, on the full minute and in
    the zone America/Chicago: a text such as [2025-02-30] is rejected. *)
Theorem accepted_dates_exist date dt :
  pubdate date = Ok dt ->
  1 <= year dt <= 9999 /\ 1 <= month dt <= 12 /\
  1 <= day dt <= days_in_month (year dt) (month dt) /\
  0 <= hour dt <= 23 /\ 0 <= minute dt <= 59 /\ second dt = 0 /\
  tzinfo dt = Some America_Chicago.
Proof.
  intros Hdt. destruct (pubdate_valid _ _ Hdt) as [Hd [Ht [Hs Hz]]].
  unfold check_date_fields, check_time_fields in *.
  rewrite !andb_true_iff, !Z.leb_le in *. tauto.
Qed.

(** One turn of the loop, and so the whole loop whether it ends well or
    stops at a bad date, only adds entry objects: the objects that were there
    stay as they are, at most one object per item is added (exactly one when
    the loop ends well), their references go in front of the feed's list,
    newest first, and the channel fields of the feed are not touched. *)
Theorem loop_only_adds_entries its h :
  let h' := snd (for_each its feed_entry h) in
  exists added,
    objects h' = objects h ++ added /\
    (length added <= length its)%nat /\
    (fst (for_each its feed_entry h) = Ok tt -> length added = length its) /\
    feed_entries (fg h')
    = rev (seq (length (objects h)) (length added)) ++ feed_entries (fg h) /\
    rss_title (fg h') = rss_title (fg h) /\
    rss_link (fg h') = rss_link (fg h) /\
    rss_description (fg h') = rss_description (fg h) /\
    rss_lastBuildDate (fg h') = rss_lastBuildDate (fg h).
Proof.
  intros h'. subst h'.
  destruct (first_bad_date its) as [date|] eqn:Hbad.
  - destruct (first_bad_split _ _ Hbad) as [its1 [c [its2 [-> [H1 H2]]]]].
    rewrite (for_each_stops _ _ _ _ _ H1 H2). cbn [fst snd objects fg].
    eexists. split; [reflexivity|].
    rewrite !length_app, length_map. cbn [length].
    split; [apply Nat.add_le_mono_l; lia|]. split; [discriminate|].
    split; [|repeat split].
    cbn [feed_entries set_feed_entries]. rewrite Nat.add_1_r. reflexivity.
  - rewrite (for_each_ok _ _ Hbad). cbn [fst snd objects fg].
    eexists. split; [reflexivity|]. rewrite length_map.
    split; [lia|]. split; [reflexivity|].
    split; [|repeat split]. reflexivity.
Qed.

End DocumentProperties.

(* ================================================================== *)
(** ** Further properties of the date parser *)

Section ParserProperties.
Context `{UnicodeData}.
Local Open Scope Z_scope.

Lemma rmatch_year_dash {A} r date gs (k : str -> groups -> option A) a :
  rmatch (Cat TimeRE_Y (Cat (Chr (ch "-")) r)) date gs k = Some a ->
  exists y1 y2 y3 y4 rest,
    date = y1 :: y2 :: y3 :: y4 :: ch "-" :: rest /\
    is_digit y1 = true /\ is_digit y2 = true /\
    is_digit y3 = true /\ is_digit y4 = true.
Proof.
  unfold TimeRE_Y. cbn [rmatch].
  destruct date as [|y1 date]; [discriminate|].
  destruct (is_digit y1) eqn:H1; [|discriminate].
  destruct date as [|y2 date]; [discriminate|].
  destruct (is_digit y2) eqn:H2; [|discriminate].
  destruct date as [|y3 date]; [discriminate|].
  destruct (is_digit y3) eqn:H3; [|discriminate].
  destruct date as [|y4 date]; [discriminate|].
  destruct (is_digit y4) eqn:H4; [|discriminate].
  destruct date as [|c rest]; [discriminate|].
  destruct (N.eqb_spec c (ch "-")) as [->|]; [|discriminate].
  intros _. exists y1, y2, y3, y4, rest. repeat split; assumption.
Qed.

Lemma strptime_year_dash date format d :
  format = py "%Y-%m-%d %H:%M" \/ format = py "%Y-%m-%d" ->
  strptime date format = Ok d ->
  exists y1 y2 y3 y4 rest,
    date = y1 :: y2 :: y3 :: y4 :: ch "-" :: rest /\
    is_digit y1 = true /\ is_digit y2 = true /\
    is_digit y3 = true /\ is_digit y4 = true.
Proof.
  unfold strptime. intros [-> | ->].
  - rewrite pattern_minute. unfold re_match.
    match goal with
    | |- context [rmatch ?r date [] ?k] =>
        destruct (rmatch r date [] k) as [res|] eqn:E; [|discriminate]
    end.
    intros _. exact (rmatch_year_dash _ _ _ _ _ E).
  - rewrite pattern_date. unfold re_match.
    match goal with
    | |- context [rmatch ?r date [] ?k] =>
        destruct (rmatch r date [] k) as [res|] eqn:E; [|discriminate]
    end.
    intros _. exact (rmatch_year_dash _ _ _ _ _ E).
Qed.

(** Every date text the parser accepts begins with four decimal digits and
    a hyphen: a two-digit year, a date with slashes, a month name or a text
    that starts with anything but a digit makes the run fail. *)
Theorem accepted_dates_begin_with_year date dt :
  pubdate date = Ok dt ->
  exists y1 y2 y3 y4 rest,
    date = y1 :: y2 :: y3 :: y4 :: ch "-" :: rest /\
    is_digit y1 = true /\ is_digit y2 = true /\
    is_digit y3 = true /\ is_digit y4 = true.
Proof.
  rewrite pubdate_cases.
  destruct (strptime date (py "%Y-%m-%d %H:%M")) eqn:E1.
  - intros _. eapply strptime_year_dash; [left; reflexivity | eassumption].
  - destruct (strptime date (py "%Y-%m-%d")) eqn:E2; [|discriminate].
    intros _. eapply strptime_year_dash; [right; reflexivity | eassumption].
Qed.

Lemma spaces_star_run {A} ws n s (k : str -> option A) a :
  Forall (fun c => is_space c = true) ws ->
  k (digit_char n :: s) = Some a ->
  spaces_star (ws ++ digit_char n :: s) k = Some a.
Proof.
  intros Hws Hk. induction Hws as [|c ws Hc _ IH].
  - cbn [app spaces_star]. rewrite is_space_digit_char. exact Hk.
  - cbn [app spaces_star]. rewrite Hc, IH. reflexivity.
Qed.

Lemma rmatch_Spaces_run {A} ws n s gs (k : str -> groups -> option A) a :
  ws <> [] ->
  Forall (fun c => is_space c = true) ws ->
  k (digit_char n :: s) gs = Some a ->
  rmatch Spaces (ws ++ digit_char n :: s) gs k = Some a.
Proof.
  intros Hne Hws Hk. destruct Hws as [|c ws Hc Hws]; [congruence|].
  cbn [app rmatch]. rewrite Hc.
  apply (spaces_star_run ws n s (fun rest => k rest gs)); assumption.
Qed.

Lemma strptime_minute_spaced y m d h mi ws :
  check_date_fields y m d = true ->
  check_time_fields h mi 0 = true ->
  ws <> [] ->
  Forall (fun c => is_space c = true) ws ->
  strptime (render_date y m d ++ ws ++ pad2 h ++ ch ":" :: pad2 mi)
           (py "%Y-%m-%d %H:%M")
  = Ok (mkDatetime y m d h mi 0 None).
Proof.
  intros Hok Htime Hne Hws.
  destruct (check_date_fields_bounds _ _ _ Hok) as [Hy [Hm Hd]].
  destruct (check_time_fields_bounds _ _ Htime) as [Hh Hmi].
  unfold strptime. rewrite pattern_minute.
  assert (Hmatch :
    re_match (Cat TimeRE_Y (Cat (Chr (ch "-")) (Cat TimeRE_m
                (Cat (Chr (ch "-")) (Cat TimeRE_d (Cat Spaces (Cat TimeRE_H
                   (Cat (Chr (ch ":")) (Cat TimeRE_M Eps)))))))))
             (render_date y m d ++ ws ++ pad2 h ++ ch ":" :: pad2 mi)
    = Some ([(ch "M", pad2 mi); (ch "H", pad2 h); (ch "d", pad2 d);
             (ch "m", pad2 m); (ch "Y", pad4 y)], [])).
  { unfold re_match, render_date.
    rewrite <- !app_assoc. cbn [app].
    rewrite rmatch_Cat, rmatch_Y, rmatch_Cat, rmatch_Chr, rmatch_Cat.
    apply rmatch_m; [exact Hm|].
    rewrite rmatch_Cat, rmatch_Chr, rmatch_Cat.
    apply rmatch_d; [exact Hd|].
    rewrite rmatch_Cat.
    change (pad2 h ++ ch ":" :: pad2 mi)%list
      with (digit_char (h / 10) :: (digit_char h :: ch ":" :: pad2 mi)).
    apply rmatch_Spaces_run; [exact Hne | exact Hws |].
    rewrite rmatch_Cat.
    change (digit_char (h / 10) :: digit_char h :: ch ":" :: pad2 mi)
      with (pad2 h ++ ch ":" :: pad2 mi)%list.
    apply rmatch_H; [exact Hh|].
    rewrite rmatch_Cat, rmatch_Chr, rmatch_Cat.
    rewrite <- (app_nil_r (pad2 mi)).
    apply rmatch_M; [exact Hmi|]. reflexivity. }
  rewrite Hmatch. unfold field. cbn [group].
  cbv [ch N_of_ascii N.eqb Pos.eqb N_of_digits N.add N.mul Pos.add Pos.mul
       Pos.succ].
  rewrite int_pad4, !int_pad2 by lia.
  rewrite Hok, Htime. reflexivity.
Qed.

(** Between the date and the time any run of whitespace will do, a tab or
    several blanks as well as the one blank of the format. *)
Theorem any_whitespace_before_the_time y m d h mi ws :
  check_date_fields y m d = true ->
  check_time_fields h mi 0 = true ->
  ws <> [] ->
  Forall (fun c => is_space c = true) ws ->
  pubdate (render_date y m d ++ ws ++ pad2 h ++ ch ":" :: pad2 mi)
  = Ok (mkDatetime y m d h mi 0 (Some America_Chicago)).
Proof.
  intros Hok Htime Hne Hws. rewrite pubdate_cases.
  rewrite (strptime_minute_spaced _ _ _ _ _ _ Hok Htime Hne Hws).
  reflexivity.
Qed.

End ParserProperties.

(* ================================================================== *)
(** ** The offset of a publication date through the year *)

Section OffsetProperties.
Context `{UnicodeData} `{TzData}.
Local Open Scope Z_scope.

Lemma days_before_month_values y :
  let leap := if is_leap y then 1 else 0 in
  days_before_month y 1 = 0 /\ days_before_month y 2 = 31 /\
  days_before_month y 3 = 59 + leap /\ days_before_month y 4 = 90 + leap /\
  days_before_month y 5 = 120 + leap /\ days_before_month y 6 = 151 + leap /\
  days_before_month y 7 = 181 + leap /\ days_before_month y 8 = 212 + leap /\
  days_before_month y 9 = 243 + leap /\ days_before_month y 10 = 273 + leap /\
  days_before_month y 11 = 304 + leap /\ days_before_month y 12 = 334 + leap.
Proof.
  cbv -[is_leap]. destruct (is_leap y); cbv; repeat split.
Qed.

Lemma weekday_range y m d : 0 <= weekday y m d <= 6.
Proof.
  unfold weekday. pose proof (Z.mod_pos_bound (ymd2ord y m d + 6) 7 eq_refl).
  lia.
Qed.

Lemma central_is_dst_by_month dt :
  1 <= day dt <= 31 -> 0 <= hour dt <= 23 -> 0 <= minute dt <= 59 ->
  (4 <= month dt <= 10 -> central_is_dst dt = true) /\
  (month dt = 12 \/ 1 <= month dt <= 2 -> central_is_dst dt = false).
Proof.
  intros Hd Hh Hmi.
  destruct (days_before_month_values (year dt))
    as [D1 [D2 [D3 [D4 [D5 [D6 [D7 [D8 [D9 [D10 [D11 D12]]]]]]]]]]].
  pose proof (weekday_range (year dt) 3 8) as W3.
  pose proof (weekday_range (year dt) 11 1) as W11.
  unfold central_is_dst, minute_of_year, sunday_from.
  rewrite D3, D11.
  set (leap := if is_leap (year dt) then 1 else 0) in *.
  assert (Hleap : 0 <= leap <= 1) by (subst leap; destruct (is_leap _); lia).
  split.
  - intros Hm. apply andb_true_iff. rewrite Z.leb_le, Z.ltb_lt.
    assert (Hcases : month dt = 4 \/ month dt = 5 \/ month dt = 6 \/
                     month dt = 7 \/ month dt = 8 \/ month dt = 9 \/
                     month dt = 10) by lia.
    destruct Hcases as [E | [E | [E | [E | [E | [E | E]]]]]]; rewrite E;
      rewrite ?D4, ?D5, ?D6, ?D7, ?D8, ?D9, ?D10; lia.
  - intros Hm. apply andb_false_iff. rewrite Z.leb_gt, Z.ltb_ge.
    assert (Hcases : month dt = 12 \/ month dt = 1 \/ month dt = 2) by lia.
    destruct Hcases as [E | [E | E]]; rewrite E; rewrite ?D12, ?D1, ?D2; lia.
Qed.

(** From 2007 on, the offset that goes with a publication date is five
    hours behind UTC for every date from April to October and six hours for
    every date from December to February; only in March and November does it
    depend on the day. *)
Theorem offset_by_month date dt :
  pubdate date = Ok dt ->
  2007 <= year dt ->
  (4 <= month dt <= 10 ->
   utcoffset dt = Some (-18000) /\ strftime_z dt = Some (py "-0500")) /\
  (month dt = 12 \/ 1 <= month dt <= 2 ->
   utcoffset dt = Some (-21600) /\ strftime_z dt = Some (py "-0600")).
Proof.
  intros Hdt Hy.
  destruct (pubdate_valid _ _ Hdt) as [Hd [Ht [_ Hz]]].
  destruct (check_date_fields_bounds _ _ _ Hd) as [_ [_ Hday]].
  destruct (check_time_fields_bounds _ _ Ht) as [Hh Hmi].
  destruct (central_is_dst_by_month dt Hday Hh Hmi) as [Hsummer Hwinter].
  assert (Hyear : (year dt <? 2007) = false) by (apply Z.ltb_ge; lia).
  split; intros Hm.
  - assert (Hoff : utcoffset dt = Some (-18000))
      by (unfold utcoffset; rewrite Hz, Hyear, (Hsummer Hm); reflexivity).
    split; [exact Hoff|]. unfold strftime_z. rewrite Hoff. reflexivity.
  - assert (Hoff : utcoffset dt = Some (-21600))
      by (unfold utcoffset; rewrite Hz, Hyear, (Hwinter Hm); reflexivity).
    split; [exact Hoff|]. unfold strftime_z. rewrite Hoff. reflexivity.
Qed.

End OffsetProperties.

(* ================================================================== *)
(** ** The further properties at sample inputs *)

Section AtMoreSamples.
Import Samples.
#[local] Existing Instance ascii_only.
#[local] Existing Instance paragraph.
#[local] Existing Instance cst_always.
Local Open Scope Z_scope.

Lemma forbidden_character_stops_the_writer_witness :
  (Forall (fun item : NewsItem => parses (fst item) = true)
     (items control_character) /\
   In (py "2025-05-01", py "a" ++ [1%N] ++ py "b") (items control_character) /\
   In 1%N (slice_to 60 (py "a" ++ [1%N] ++ py "b")) /\
   xml_char 1%N = false) /\
  exists why,
    main noon (mkFiles (Some control_character) None)
    = (Raise (ValueError why), mkFiles (Some control_character) None) /\
    (why = not_xml_compatible \/ why = surrogates_not_allowed) /\
    exit_status (fst (main noon (mkFiles (Some control_character) None))) = 1.
Proof.
  assert (Hdates : Forall (fun item : NewsItem => parses (fst item) = true)
                     (items control_character))
    by (repeat constructor).
  assert (Hin : In (py "2025-05-01", py "a" ++ [1%N] ++ py "b")
                  (items control_character))
    by (left; reflexivity).
  assert (Hc : In 1%N (slice_to 60 (py "a" ++ [1%N] ++ py "b")))
    by (right; left; reflexivity).
  assert (Hbad : xml_char 1%N = false) by reflexivity.
  split; [repeat split; assumption|].
  exact (forbidden_character_stops_the_writer noon control_character None
           _ _ _ Hdates Hin Hc Hbad).
Defined.

Lemma no_heading_gives_empty_feed_witness :
  has_heading true no_heading = false /\
  main noon (mkFiles (Some no_heading) None)
  = (Ok tt, mkFiles (Some no_heading) (Some (feed_document noon []))).
Proof.
  split; [reflexivity|].
  apply (no_heading_gives_empty_feed noon no_heading None).
  reflexivity.
Defined.


Lemma written_document_shape_witness :
  let doc := feed_document noon (rev (map item_elem (items scenario))) in
  main noon (mkFiles (Some scenario) None)
  = (Ok tt, mkFiles (Some scenario) (Some doc)) /\
  channel_title doc = py "SQL Saturday News" /\
  length (channel_items doc) = length (items scenario).
Proof.
  intros doc.
  assert (Hrun : main noon (mkFiles (Some scenario) None)
                 = (Ok tt, mkFiles (Some scenario) (Some doc)))
    by (vm_compute; reflexivity).
  split; [exact Hrun|].
  destruct (written_document_shape noon scenario None doc Hrun)
    as [Ht [_ [_ [Hn _]]]].
  split; [exact Ht | exact Hn].
Defined.

Lemma accepted_dates_exist_witness :
  pubdate (py "2024-02-29 23:59")
  = Ok (mkDatetime 2024 2 29 23 59 0 (Some America_Chicago)) /\
  1 <= 29 <= days_in_month 2024 2.
Proof.
  assert (Hdt : pubdate (py "2024-02-29 23:59")
                = Ok (mkDatetime 2024 2 29 23 59 0 (Some America_Chicago)))
    by (vm_compute; reflexivity).
  split; [exact Hdt|].
  exact (proj1 (proj2 (proj2 (accepted_dates_exist _ _ Hdt)))).
Defined.

Lemma loop_only_adds_entries_witness :
  let h := mkHeap (FeedGenerator_init noon) [] in
  fst (for_each (items scenario) feed_entry h) = Ok tt /\
  exists added,
    objects (snd (for_each (items scenario) feed_entry h))
    = objects h ++ added /\
    length added = length (items scenario).
Proof.
  intros h.
  assert (Hok : fst (for_each (items scenario) feed_entry h) = Ok tt)
    by (vm_compute; reflexivity).
  split; [exact Hok|].
  destruct (loop_only_adds_entries (items scenario) h)
    as [added [Hobj [_ [Hlen _]]]].
  exists added. split; [exact Hobj | exact (Hlen Hok)].
Defined.

Lemma accepted_dates_begin_with_year_witness :
  pubdate (py "2025-5-3")
  = Ok (mkDatetime 2025 5 3 0 0 0 (Some America_Chicago)) /\
  exists y1 y2 y3 y4 rest,
    py "2025-5-3" = y1 :: y2 :: y3 :: y4 :: ch "-" :: rest /\
    is_digit y1 = true /\ is_digit y2 = true /\
    is_digit y3 = true /\ is_digit y4 = true.
Proof.
  assert (Hdt : pubdate (py "2025-5-3")
                = Ok (mkDatetime 2025 5 3 0 0 0 (Some America_Chicago)))
    by (vm_compute; reflexivity).
  split; [exact Hdt|].
  exact (accepted_dates_begin_with_year _ _ Hdt).
Defined.

Lemma any_whitespace_before_the_time_witness :
  (check_date_fields 2025 5 3 = true /\
   check_time_fields 14 30 0 = true /\
   [9%N; 32%N; 32%N] <> [] /\
   Forall (fun c => is_space c = true) [9%N; 32%N; 32%N]) /\
  pubdate (render_date 2025 5 3 ++ [9%N; 32%N; 32%N] ++
           pad2 14 ++ ch ":" :: pad2 30)
  = Ok (mkDatetime 2025 5 3 14 30 0 (Some America_Chicago)).
Proof.
  assert (Hne : [9%N; 32%N; 32%N] <> []) by discriminate.
  assert (Hws : Forall (fun c => is_space c = true) [9%N; 32%N; 32%N])
    by (repeat constructor).
  split; [repeat split; [exact Hne | exact Hws]|].
  exact (any_whitespace_before_the_time 2025 5 3 14 30 _
           eq_refl eq_refl Hne Hws).
Defined.

Lemma offset_by_month_witness :
  (pubdate (py "2031-07-04 12:00")
   = Ok (mkDatetime 2031 7 4 12 0 0 (Some America_Chicago)) /\
   2007 <= 2031 /\ 4 <= 7 <= 10) /\
  utcoffset (mkDatetime 2031 7 4 12 0 0 (Some America_Chicago))
  = Some (-18000).
Proof.
  assert (Hdt : pubdate (py "2031-07-04 12:00")
                = Ok (mkDatetime 2031 7 4 12 0 0 (Some America_Chicago)))
    by (vm_compute; reflexivity).
  assert (Hy : 2007 <= 2031) by lia.
  assert (Hm : 4 <= 7 <= 10) by lia.
  split; [split; [exact Hdt | split; [exact Hy | exact Hm]]|].
  exact (proj1 (proj1 (offset_by_month _ _ Hdt Hy) Hm)).
Defined.

End AtMoreSamples.
